(** * Endpoint routers of the gamma_endpoint API, shallow embedding

    This development models the route functions of
    [sources/internal/endpoint/routers.py] and
    [sources/frontend/endpoint/routers.py]: the weekly fee window
    resolution and partitioning, the multi-period [fee_returns] merge, the
    deployment guard, the CSV returns endpoint and the correlation
    endpoint.  Python exceptions become the [Raise] branch of the result
    type [res]; collaborators that live outside these two files
    ([get_chain_usd_fees], [fee_returns_all], [filter_addresses],
    [get_correlation], ...) are function parameters. *)

From Stdlib Require Import ZArith Ascii String List Lia.
From stdpp Require Import base gmap strings list.

Import ListNotations.
Open Scope Z_scope.

(* ------------------------------------------------------------------ *)
(** ** Python exceptions and the result of a route function *)

Module Py.

(** The exceptions that can escape a route function. [Upstream] stands
    for an exception raised inside a collaborator call. *)
Inductive exc : Type :=
| HTTPException (status_code : Z) (detail : string)
| KeyError (key : string)
| TypeError (msg : string)
| ValueError (msg : string)
| NameError (name : string)
| OverflowError (msg : string)
| Upstream (msg : string).

(** The outcome of evaluating Python code: a value or a raised exception. *)
Inductive res (A : Type) : Type :=
| Ok (a : A)
| Raise (e : exc).
Arguments Ok {A} a.
Arguments Raise {A} e.

Definition bind {A B} (m : res A) (k : A -> res B) : res B :=
  match m with
  | Ok a => k a
  | Raise e => Raise e
  end.

Notation "'let?' x ':=' m 'in' k" := (bind m (fun x => k))
  (at level 200, x name, m at level 100, k at level 200).

Definition is_exception {A} (r : res A) : bool :=
  match r with Raise _ => true | Ok _ => false end.

(** [asyncio.gather( *aws )] without [return_exceptions]: the list of
    results when every awaitable returns, otherwise an exception of one
    of the failed awaitables propagates out of the [await].  Which one
    depends on the completion order; the model takes the first failure in
    request order, which is one possible schedule. *)
Fixpoint gather {A} (l : list (res A)) : res (list A) :=
  match l with
  | [] => Ok []
  | Ok a :: t => match gather t with
                 | Ok r => Ok (a :: r)
                 | Raise e => Raise e
                 end
  | Raise e :: _ => Raise e
  end.

(** [asyncio.gather(..., return_exceptions=True)]: every outcome, in
    request order, exceptions returned as values. *)
Definition gather_return_exceptions {A} (l : list (res A)) : list (res A) := l.

(** ** Python string operations used by the resolver *)

Open Scope string_scope.

(** [s.split(sep)] for a one-character separator. *)
Fixpoint split (sep : ascii) (s : string) : list string :=
  match s with
  | EmptyString => [EmptyString]
  | String c r =>
      if Ascii.eqb c sep then EmptyString :: split sep r
      else match split sep r with
           | h :: t => String c h :: t
           | [] => [String c EmptyString]
           end
  end.

(** [s.startswith(p)] *)
Definition startswith (s p : string) : bool := String.prefix p s.

Definition is_space (c : ascii) : bool :=
  existsb (Nat.eqb (nat_of_ascii c)) [32; 9; 10; 11; 12; 13]%nat.

Definition is_digit (c : ascii) : bool :=
  let n := nat_of_ascii c in (48 <=? n)%nat && (n <=? 57)%nat.

Definition digit_value (c : ascii) : Z := Z.of_nat (nat_of_ascii c) - 48.

Fixpoint lstrip (l : list ascii) : list ascii :=
  match l with
  | c :: r => if is_space c then lstrip r else l
  | [] => []
  end.

(** [s.strip()] over ASCII white space. *)
Definition strip (l : list ascii) : list ascii := rev (lstrip (rev (lstrip l))).

(** Digits after the first one: a digit, or one underscore followed by a
    digit (PEP 515 grouping accepted by [int()]). *)
Fixpoint int_digits (acc : Z) (l : list ascii) : option Z :=
  match l with
  | [] => Some acc
  | c :: r =>
      if is_digit c then int_digits (acc * 10 + digit_value c) r
      else if Ascii.eqb c "_" then
        match r with
        | d :: r' => if is_digit d then int_digits (acc * 10 + digit_value d) r'
                     else None
        | [] => None
        end
      else None
  end.

Definition int_unsigned (l : list ascii) : option Z :=
  match l with
  | c :: r => if is_digit c then int_digits (digit_value c) r else None
  | [] => None
  end.

Open Scope Z_scope.

Definition count_digits (l : list ascii) : nat := List.length (List.filter is_digit l).

(** [PyLong_FromString(buffer, &end, 10)] on the ASCII buffer, required
    to consume all of it: surrounding white space ([Py_ISSPACE], the six
    ASCII blanks), an optional sign, then decimal digits with optional
    single underscores between them.  More than 4300 digits (the default
    [sys.get_int_max_str_digits()] of CPython 3.11) is a [ValueError]
    too.  [None] is the [ValueError]. *)
Definition py_int_ascii (l : list ascii) : option Z :=
  if (4300 <? count_digits l)%nat then None
  else
    match strip l with
    | c :: r =>
        if Ascii.eqb c "+" then int_unsigned r
        else if Ascii.eqb c "-" then option_map Z.opp (int_unsigned r)
        else int_unsigned (c :: r)
    | [] => None
    end.

(** ** Python [str] values

    A Python [str] is represented by its UTF-8 encoding.  The operations
    the resolver applies to it ([==], [startswith], [split("-")], [len])
    give the same answers on the code points and on their encoding,
    since every byte of a multi-byte sequence is 128 or above. *)

Definition byte (c : ascii) : Z := Z.of_nat (nat_of_ascii c).

Definition continuation (c : ascii) : bool := (128 <=? byte c) && (byte c <? 192).

(** Strict UTF-8 decoding: no overlong form, no surrogate, nothing above
    [U+10FFFF].  A byte string that is not UTF-8 encodes no [str]. *)
Fixpoint utf8_decode (l : list ascii) : option (list Z) :=
  match l with
  | [] => Some []
  | b0 :: r =>
      let x := byte b0 in
      if x <? 128 then option_map (cons x) (utf8_decode r)
      else if (194 <=? x) && (x <? 224) then
        match r with
        | b1 :: r1 =>
            if continuation b1
            then option_map (cons ((x - 192) * 64 + (byte b1 - 128))) (utf8_decode r1)
            else None
        | [] => None
        end
      else if (224 <=? x) && (x <? 240) then
        match r with
        | b1 :: b2 :: r2 =>
            let cp := (x - 224) * 4096 + (byte b1 - 128) * 64 + (byte b2 - 128) in
            if continuation b1 && continuation b2 && (2048 <=? cp)
               && negb ((55296 <=? cp) && (cp <? 57344))
            then option_map (cons cp) (utf8_decode r2)
            else None
        | _ => None
        end
      else if (240 <=? x) && (x <? 245) then
        match r with
        | b1 :: b2 :: b3 :: r3 =>
            let cp := (x - 240) * 262144 + (byte b1 - 128) * 4096
                      + (byte b2 - 128) * 64 + (byte b3 - 128) in
            if continuation b1 && continuation b2 && continuation b3
               && (65536 <=? cp) && (cp <? 1114112)
            then option_map (cons cp) (utf8_decode r3)
            else None
        | _ => None
        end
      else None
  end.

(** [Py_UNICODE_ISSPACE] for the code points from 127 on. *)
Definition unicode_space (cp : Z) : bool :=
  existsb (Z.eqb cp)
    [133; 160; 5760; 8192; 8193; 8194; 8195; 8196; 8197; 8198; 8199; 8200;
     8201; 8202; 8232; 8233; 8239; 8287; 12288].

(** The code points whose Unicode decimal value is 0 in the Unicode
    14.0.0 database of CPython 3.11; the digits with values 1 to 9 follow
    each of them, and there are no other decimal digits. *)
Definition decimal_zeros : list Z :=
  [48; 1632; 1776; 1984; 2406; 2534; 2662; 2790; 2918; 3046; 3174; 3302;
   3430; 3558; 3664; 3792; 3872; 4160; 4240; 6112; 6160; 6470; 6608; 6784;
   6800; 6992; 7088; 7232; 7248; 42528; 43216; 43264; 43472; 43504; 43600;
   44016; 65296; 66720; 68912; 69734; 69872; 69942; 70096; 70384; 70736;
   70864; 71248; 71360; 71472; 71904; 72016; 72784; 73040; 73120; 92768;
   92864; 93008; 120782; 120792; 120802; 120812; 120822; 123200; 123632;
   125264; 130032].

(** [Py_UNICODE_TODECIMAL] *)
Definition to_decimal (cp : Z) : option Z :=
  match List.find (fun z => (z <=? cp) && (cp <=? z + 9)) decimal_zeros with
  | Some z => Some (cp - z)
  | None => None
  end.

(** [_PyUnicode_TransformDecimalAndSpaceToASCII] on a string that is not
    all ASCII: code points below 127 are kept, white space becomes a
    blank, a decimal digit its ASCII digit, and anything else ends the
    buffer with ["?"]. *)
Fixpoint transform_decimal_and_space (l : list Z) : list ascii :=
  match l with
  | [] => []
  | c :: r =>
      if c <? 127 then ascii_of_nat (Z.to_nat c) :: transform_decimal_and_space r
      else if unicode_space c then " "%char :: transform_decimal_and_space r
      else match to_decimal c with
           | Some d => ascii_of_nat (48 + Z.to_nat d) :: transform_decimal_and_space r
           | None => ["?"%char]
           end
  end.

(** [int(s)] for a [str] argument in base 10 ([PyLong_FromUnicodeObject]):
    an all-ASCII string is parsed as it is, any other one after the
    transformation above.  [None] is the [ValueError]. *)
Definition py_int (s : string) : option Z :=
  let l := list_ascii_of_string s in
  if forallb (fun c => byte c <? 128) l then py_int_ascii l
  else
    match utf8_decode l with
    | Some cps => py_int_ascii (transform_decimal_and_space cps)
    | None => None
    end.

(** The [ValueError] of [int()], with the message abbreviated: CPython
    appends the repr of the string, and words the digit-limit error
    differently. *)
Definition int_value_error : exc := ValueError "invalid literal for int() with base 10".

(** ** Python floats holding integer values

    [round_to_double x] is the IEEE 754 binary64 value nearest to the
    integer [x], ties to even, without an upper exponent bound. *)
Definition round_to_double (x : Z) : Z :=
  let a := Z.abs x in
  if a <? 2 ^ 53 then x
  else
    let e := Z.log2 a - 52 in
    let q := a / 2 ^ e in
    let r := a mod 2 ^ e in
    let h := 2 ^ (e - 1) in
    let q' := if r <? h then q
              else if h <? r then q + 1
              else if Z.even q then q else q + 1 in
    Z.sgn x * (q' * 2 ^ e).

(** The conversion of an int operand to float in mixed arithmetic
    ([PyLong_AsDouble]): correctly rounded, and [OverflowError] when the
    rounded value reaches [2^1024]. *)
Definition int_to_float (x : Z) : res Z :=
  let y := round_to_double x in
  if Z.abs y <? 2 ^ 1024 then Ok y
  else Raise (OverflowError "int too large to convert to float").

(** [f - i] for a float [f] and an int [i]: [i] is converted, then the
    difference is rounded.  The difference stays below [2^1024] here,
    since [f] is a datetime timestamp, so no infinity arises. *)
Definition float_sub_int (f i : Z) : res Z :=
  match int_to_float i with
  | Ok k => Ok (round_to_double (f - k))
  | Raise e => Raise e
  end.

End Py.

Import Py.
Open Scope string_scope.
Open Scope Z_scope.

(* ------------------------------------------------------------------ *)
(** ** [weekly_chain_usd_fees] (internal routers) *)

Module Weekly.

(** [week_start_timestamp: int | str] *)
Inductive week_start : Type :=
| WInt (z : Z)
| WStr (s : string).

Definition week_in_seconds : Z := 604800.

(** [datetime(year=_now.year, month=_now.month, day=_now.day,
    tzinfo=timezone.utc).timestamp()]: the UTC midnight of the day of
    [_now], for [_now] given as epoch seconds (POSIX time has 86400
    seconds per day). *)
Definition utc_midnight (now : Z) : Z := now - now mod 86400.

(** The [isinstance(week_start_timestamp, str)] block: the start as
    resolved from a string, or the exception it raises.  [now] is the
    reading of [datetime.now(timezone.utc)] taken at the top of the
    block.  The [int(...)] of the token after the dash raises
    [ValueError] when it is not an integer literal.  The start is a
    float: [.timestamp()] minus an int.  For ["last"] the subtraction is
    exact (a datetime timestamp lies within [2^38] of 0); for ["last-N"]
    the int [week_in_seconds * (N + 1)] is converted to float first, which
    rounds or overflows when it is large. *)
Definition resolve_week_start (w : week_start) (now : Z) : res Z :=
  match w with
  | WInt z => Ok z
  | WStr s =>
      if String.eqb s "last" then Ok (utc_midnight now - week_in_seconds)
      else if startswith s "last" && (List.length (split "-" s) =? 2)%nat then
        match py_int (nth 1 (split "-" s) "") with
        | Some n => float_sub_int (utc_midnight now) (week_in_seconds * (n + 1))
        | None => Raise int_value_error
        end
      else Raise (HTTPException 400 "Invalid week start timestamp.")
  end.

(** [start_timestamp = week_start_timestamp or int(now)]: a falsy (zero)
    start is replaced by the current time [now1]. *)
Definition start_timestamp (resolved now1 : Z) : Z :=
  if Z.eqb resolved 0 then now1 else resolved.

(** [weeks = int(end - start) // week_in_seconds] and the list
    comprehension over [range(weeks)] (empty when [weeks <= 0]).  The
    arithmetic is exact: with an int start it is int arithmetic, and a
    float start from the string block only makes these sums round when
    it lies [2^53] seconds or more before the clock, that is when
    [range(weeks)] has more than [2^53 / 604800] (about [1.5e10])
    elements, a list the comprehension cannot build in memory. *)
Definition week_timestamps (start end_ : Z) : list (Z * Z * Z) :=
  let weeks := (end_ - start) / week_in_seconds in
  map (fun week => (week, start + week_in_seconds * week,
                    start + week_in_seconds * (week + 1) - 1))
      (map Z.of_nat (seq 0 (Z.to_nat weeks))).

Section Route.
Context {V : Type}.
(** [get_chain_usd_fees(chain, protocol, start_timestamp, end_timestamp,
    weeknum)], a collaborator of [..bins.fee_internal]. *)
Variable get_chain_usd_fees : string -> option string -> Z -> Z -> Z -> res V.

(** The route function.  [now0], [now1] and [now2] are the three
    readings of the clock: in the string block, for the default start
    and for [end_timestamp]. *)
Definition weekly_chain_usd_fees (chain : string) (w : week_start)
    (protocol : option string) (now0 now1 now2 : Z) : res (list V) :=
  let? resolved := resolve_week_start w now0 in
  let start := start_timestamp resolved now1 in
  let end_ := now2 in
  let requests :=
    map (fun '(weeknum, st, et) =>
           get_chain_usd_fees chain protocol st et (weeknum + 1))
        (week_timestamps start end_) in
  gather requests.
End Route.

End Weekly.

(* ------------------------------------------------------------------ *)
(** ** Deployment guard and [fee_returns] (internal routers) *)

Module Returns.

(** [DEPLOYMENTS] is a table of [(protocol, chain)] pairs from the
    subgraph configuration; the enums are represented by their formatted
    names, as they appear in the f-string of the error detail. *)
Definition deployments := list (string * string).

Definition not_available (protocol chain : string) : exc :=
  HTTPException 400 (protocol ++ " on " ++ chain ++ " not available.").

(** [if (protocol, chain) not in DEPLOYMENTS: raise HTTPException(...)] *)
Definition check_deployment (D : deployments) (protocol chain : string) : res unit :=
  if existsb (fun '(p, c) => String.eqb p protocol && String.eqb c chain) D
  then Ok tt else Raise (not_available protocol chain).

(** [if protocol and (protocol, chain) not in DEPLOYMENTS: raise ...] in
    [gross_fees] and [all_chain_usd_fees]. *)
Definition check_optional_deployment (D : deployments) (protocol : option string)
    (chain : string) : res unit :=
  match protocol with
  | Some p => check_deployment D p chain
  | None => Ok tt
  end.

(** One entry of [fee_returns_all(...)["total"]] or [["lp"]]. *)
Record fee_stat : Type := mk_fee_stat {
  symbol : string;
  feeApr : Z;
  feeApy : Z;
  status : string
}.

(** The dictionary returned by [fee_returns_all(..., return_total=True)]. *)
Record returns_all : Type := mk_returns_all {
  total : gmap string fee_stat;
  lp : gmap string fee_stat
}.

(** [InternalFeeYield] *)
Record fee_yield : Type := mk_fee_yield {
  totalApr : Z;
  totalApy : Z;
  lpApr : Z;
  lpApy : Z;
  yield_status : string
}.

(** [InternalFeeReturnsOutput]: the symbol and one optional yield per
    period name. *)
Record fee_returns_output : Type := mk_output {
  out_symbol : string;
  daily : option fee_yield;
  weekly : option fee_yield;
  monthly : option fee_yield
}.

Definition new_output (sym : string) : fee_returns_output :=
  mk_output sym None None None.

(** [setattr(output[hype_address], period_name, ...)] *)
Definition set_period (name : string) (o : fee_returns_output) (y : fee_yield)
    : fee_returns_output :=
  if String.eqb name "daily" then mk_output (out_symbol o) (Some y) (weekly o) (monthly o)
  else if String.eqb name "weekly" then mk_output (out_symbol o) (daily o) (Some y) (monthly o)
  else if String.eqb name "monthly" then mk_output (out_symbol o) (daily o) (weekly o) (Some y)
  else o.

Definition make_yield (st sl : fee_stat) : fee_yield :=
  mk_fee_yield (feeApr st) (feeApy st) (feeApr sl) (feeApy sl)
    ("Total:" ++ status st ++ ", LP: " ++ status sl).

(** The inner [for period_name, period_result in result_map.items()]
    loop for one [hype_address]; a missing address raises [KeyError]. *)
Fixpoint fill_periods (h : string) (ps : list (string * res returns_all))
    (o : fee_returns_output) : res fee_returns_output :=
  match ps with
  | [] => Ok o
  | (_, Raise _) :: t => fill_periods h t o
  | (name, Ok r) :: t =>
      match total r !! h with
      | None => Raise (KeyError h)
      | Some st =>
          match lp r !! h with
          | None => Raise (KeyError h)
          | Some sl => fill_periods h t (set_period name o (make_yield st sl))
          end
      end
  end.

(** The outer [for hype_address in valid_results] loop.  Addresses are
    visited in the order of [map_to_list]; as the keys are distinct the
    resulting map does not depend on that order. *)
Fixpoint entries (rm : list (string * res returns_all))
    (l : list (string * fee_stat)) : res (gmap string fee_returns_output) :=
  match l with
  | [] => Ok ∅
  | (h, s) :: t =>
      let? o := fill_periods h rm (new_output (symbol s)) in
      let? out := entries rm t in
      Ok (<[h := o]> out)
  end.

(** The nested conditional expression [valid_results]: the ["lp"] part
    of the daily result, unless it is an exception, then of the weekly
    one, then of the monthly one.  Subscripting an exception object
    raises [TypeError]. *)
Definition valid_results (d w m : res returns_all) : res (gmap string fee_stat) :=
  match d with
  | Ok r => Ok (lp r)
  | Raise _ =>
      match w with
      | Ok r => Ok (lp r)
      | Raise _ =>
          match m with
          | Ok r => Ok (lp r)
          | Raise _ => Raise (TypeError "'Exception' object is not subscriptable")
          end
      end
  end.

Section Route.
(** [fee_returns_all(protocol, chain, days, return_total=True)] *)
Variable fee_returns_all : string -> string -> Z -> res returns_all.

Definition fee_returns (D : deployments) (protocol chain : string)
    : res (gmap string fee_returns_output) :=
  let? _ := check_deployment D protocol chain in
  match gather_return_exceptions
          [fee_returns_all protocol chain 1;
           fee_returns_all protocol chain 7;
           fee_returns_all protocol chain 30] with
  | [d; w; m] =>
      let result_map := [("daily", d); ("weekly", w); ("monthly", m)] in
      let? valid := valid_results d w m in
      entries result_map (map_to_list valid)
  | _ => Raise (TypeError "unreachable")
  end.
End Route.

Section Passthrough.
Context {V : Type}.
(** [get_gross_fees] and [get_chain_usd_fees] with the timeframe
    arguments already applied. *)
Variable collaborator : option string -> string -> V.

(** [gross_fees] and [all_chain_usd_fees] share this shape. *)
Definition guarded_passthrough (D : deployments) (chain : string)
    (protocol : option string) : res V :=
  let? _ := check_optional_deployment D protocol chain in
  Ok (collaborator protocol chain).
End Passthrough.

End Returns.

(* ------------------------------------------------------------------ *)
(** ** Frontend analytics routes *)

Module Frontend.

(** The names bound at module level in [sources/frontend/endpoint/routers.py]:
    its imports and its own top-level definitions. *)
Definition module_globals : list string :=
  ["asyncio"; "datetime"; "timezone"; "logging"; "HTTPException"; "Query";
   "Response"; "APIRouter"; "status"; "StreamingResponse"; "cache";
   "DAILY_CACHE_TIMEOUT"; "DB_CACHE_TIMEOUT"; "LONG_CACHE_TIMEOUT";
   "router_builder_generalTemplate"; "router_builder_baseTemplate";
   "Period"; "int_to_period"; "filter_addresses";
   "build_hypervisor_returns_graph"; "get_positions_analysis";
   "get_correlation"; "get_correlation_from_hypervisors";
   "get_revenue_stats"; "Chain"; "Protocol"; "build_routers";
   "frontend_revenueStatus_router_builder_main";
   "frontend_analytics_router_builder_main"].

(** The builtins the route bodies use. *)
Definition builtins : list string := ["int"; "isinstance"; "iter"].

(** Resolution of a free name inside a method body (no local binding):
    module globals, then builtins, else [NameError]. *)
Definition load_global (name : string) : res unit :=
  if existsb (String.eqb name) (module_globals ++ builtins) then Ok tt
  else Raise (NameError name).

(** [Period] members, by their [.name] and [.days]. *)
Record period : Type := mk_period { period_name : string; period_days : Z }.

(** [period: Period | int] *)
Inductive period_arg : Type :=
| PEnum (p : period)
| PInt (n : Z).

Inductive response : Type :=
| CsvAttachment (filename : string) (content : string)
| JsonBody (status_code : Z) (body : list (string * string)).

Section ReturnDetail.
Context {A : Type}.
(** [int_to_period] from [sources.common.general.enums]. *)
Variable int_to_period : Z -> res period.
Variable period_daily : period.
Variable period_eqb : period -> period -> bool.
(** The analysis object built from the database, [None] when no rows
    are found, and its [get_graph_csv()]. *)
Variable build_hype_return_analysis_from_database :
  string -> string -> Z -> res (option A).
Variable get_graph_csv : A -> string.

(** [hypervisor_analytics_return_detail]: [chain_name] is
    [chain.fantasy_name]; [now] is the clock reading. *)
Definition hypervisor_analytics_return_detail (chain_name hypervisor_address : string)
    (p : period_arg) (now : Z) : res response :=
  let? per := match p with
              | PInt n => int_to_period n
              | PEnum q => Ok q
              end in
  let ini_timestamp :=
    now - (if negb (period_eqb per period_daily)
           then period_days per * 24 * 60 * 60
           else period_days per * 24 * 2 * 60 * 60) in
  let? _ := load_global "build_hype_return_analysis_from_database" in
  let? analysis :=
    build_hype_return_analysis_from_database chain_name hypervisor_address
      ini_timestamp in
  match analysis with
  | Some a =>
      let filename := chain_name ++ "_" ++ hypervisor_address ++ "_"
                      ++ period_name per ++ "_returns.csv" in
      Ok (CsvAttachment filename (get_graph_csv a))
  | None => Ok (JsonBody 404 [("detail", "No data found for the given parameters")])
  end.
End ReturnDetail.

Definition correlation_error : exc :=
  HTTPException 400 "You must provide either token_addresses or hypervisor_address".

Section Correlation.
Context {V : Type}.
(** [filter_addresses] from [sources.common.general.utils], applied to
    the query value ([None] when the parameter is absent). *)
Variable filter_addresses : option (list string) -> list string.
Variable get_correlation : list string -> list string -> res V.
Variable get_correlation_from_hypervisors : string -> list string -> res V.

(** [correlation]: non-empty lists are truthy. *)
Definition correlation (chain : string)
    (token_addresses hypervisor_addresses : option (list string)) : res V :=
  let tokens := filter_addresses token_addresses in
  let hypes := filter_addresses hypervisor_addresses in
  match tokens with
  | _ :: _ => get_correlation [chain] tokens
  | [] =>
      match hypes with
      | _ :: _ => get_correlation_from_hypervisors chain hypes
      | [] => Raise correlation_error
      end
  end.
End Correlation.

End Frontend.

(* ------------------------------------------------------------------ *)
(** ** Further frontend analytics routes *)

Module Analytics.

(** The outcome of a route that subscripts [filter_addresses([...])[0]]:
    either the route returns (a value or a collaborator's exception) or
    the subscript raises [IndexError] on an empty list. *)
Inductive route_outcome (A : Type) : Type :=
| Returned (r : res A)
| IndexError_raised.
Arguments Returned {A} r.
Arguments IndexError_raised {A}.

(** [14 * 24 * 60 * 60] *)
Definition fourteen_days : Z := 14 * 24 * 60 * 60.

Section Positions.
Context {V : Type}.
(** [filter_addresses], as in [Frontend.correlation]. *)
Variable filter_addresses : option (list string) -> list string.
(** [get_positions_analysis(chain, hypervisor_address, ini_timestamp,
    end_timestamp)] *)
Variable get_positions_analysis : string -> string -> Z -> option Z -> res V.

(** [positions_status]: a falsy [from_timestamp] ([None] or [0]) becomes
    [int(now - 14 days)], with [now] the clock reading in whole seconds;
    the address is then passed through [filter_addresses([...])[0]]. *)
Definition positions_status (chain hypervisor_address : string)
    (from_timestamp to_timestamp : option Z) (now : Z) : route_outcome V :=
  let from :=
    match from_timestamp with
    | Some z => if Z.eqb z 0 then now - fourteen_days else z
    | None => now - fourteen_days
    end in
  match filter_addresses (Some [hypervisor_address]) with
  | a :: _ => Returned (get_positions_analysis chain a from to_timestamp)
  | [] => IndexError_raised
  end.
End Positions.

Section CorrelationHypervisor.
Context {V : Type}.
Variable filter_addresses : option (list string) -> list string.
Variable get_correlation : list string -> list string -> res V.
Variable get_correlation_from_hypervisors : string -> list string -> res V.

(** [correlation_hypervisor]: [self.correlation(..., token_addresses=None,
    hypervisor_addresses=[hypervisor_address])]. *)
Definition correlation_hypervisor (chain hypervisor_address : string) : res V :=
  Frontend.correlation filter_addresses get_correlation get_correlation_from_hypervisors
    chain None (Some [hypervisor_address]).
End CorrelationHypervisor.

Section ReturnGraph.
Context {V : Type}.
(** [int_to_period], [Period.DAILY] and [Period] equality, as in
    [Frontend.hypervisor_analytics_return_detail]. *)
Variable int_to_period : Z -> res Frontend.period.
Variable period_daily : Frontend.period.
Variable period_eqb : Frontend.period -> Frontend.period -> bool.
(** [build_hypervisor_returns_graph(chain, hypervisor_address,
    ini_timestamp, points_every)] *)
Variable build_hypervisor_returns_graph : string -> string -> Z -> Z -> res V.

(** [hypervisor_analytics_return_graph]; [now] is
    [int(datetime.now(tz=timezone.utc).timestamp())]. *)
Definition hypervisor_analytics_return_graph (chain hypervisor_address : string)
    (p : Frontend.period_arg) (now : Z) : res V :=
  let? per := match p with
              | Frontend.PInt n => int_to_period n
              | Frontend.PEnum q => Ok q
              end in
  let ini_timestamp :=
    now - (if negb (period_eqb per period_daily)
           then Frontend.period_days per * 24 * 60 * 60
           else Frontend.period_days per * 24 * 2 * 60 * 60) in
  build_hypervisor_returns_graph chain hypervisor_address ini_timestamp
    (if period_eqb per period_daily then 60 * 60 else 60 * 60 * 12).
End ReturnGraph.

End Analytics.

(* ------------------------------------------------------------------ *)
(** ** Decimal spelling of a natural number, as [str(n)] prints it *)

Definition ascii_of_digit (d : Z) : ascii := ascii_of_nat (48 + Z.to_nat d).

(** Least significant digit first; [fuel] bounds the number of digits. *)
Fixpoint digits_rev (fuel : nat) (n : Z) : list ascii :=
  match fuel with
  | O => []
  | S f => ascii_of_digit (n mod 10)
           :: (if Z.eqb (n / 10) 0 then [] else digits_rev f (n / 10))
  end.

Definition decimal (n : Z) : string :=
  string_of_list_ascii (rev (digits_rev (S (Z.to_nat n)) n)).

(* ------------------------------------------------------------------ *)
(** ** Sample collaborators and specification-side definitions *)

Definition digit_step (acc : Z) (c : ascii) : Z := acc * 10 + digit_value c.

(** [k] characters ["0"]. *)
Fixpoint zeros (k : nat) : string :=
  match k with
  | O => EmptyString
  | S k' => String "0" (zeros k')
  end.

(** A fee collaborator that answers with the start of its window, used
    to observe which windows are requested. *)
Definition echo_start (_ : string) (_ : option string) (st _ _ : Z) : res Z := Ok st.

(** A fee collaborator whose call for the given week raises. *)
Definition failing_week (bad : Z) (_ : string) (_ : option string) (st _ wk : Z) : res Z :=
  if Z.eqb wk bad then Raise (Upstream "get_chain_usd_fees failed") else Ok st.


(** The ["lp"] data of the finest period that succeeded, in the order
    daily, weekly, monthly. *)
Definition finest_lp (d w m : res Returns.returns_all) : option (gmap string Returns.fee_stat) :=
  match d, w, m with
  | Ok r, _, _ | Raise _, Ok r, _ | Raise _, Raise _, Ok r => Some (Returns.lp r)
  | Raise _, Raise _, Raise _ => None
  end.


(** A sample [fee_returns_all] answer covering one hypervisor ["0xa"]. *)
Definition sample_stat : Returns.fee_stat := Returns.mk_fee_stat "SYM" 1 2 "ok".
Definition sample_returns : Returns.returns_all :=
  Returns.mk_returns_all {[ "0xa" := sample_stat ]} {[ "0xa" := sample_stat ]}.


(** A [filter_addresses] that keeps every given address. *)
Definition keep_addresses (o : option (list string)) : list string :=
  match o with Some l => l | None => [] end.

Definition correlation_result (_ : list string) (_ : list string) : res string := Ok "tokens".
Definition hypervisor_correlation_result (_ : string) (_ : list string) : res string :=
  Ok "hypervisors".

(** Daily data covering ["0xa"], weekly data with no ["total"] entry. *)
Definition gap_returns (days : Z) : res Returns.returns_all :=
  if Z.eqb days 7 then Ok (Returns.mk_returns_all ∅ {[ "0xa" := sample_stat ]})
  else Ok sample_returns.

(** A [get_positions_analysis] that returns the start of its window. *)
Definition positions_echo (_ _ : string) (from : Z) (_ : option Z) : res Z := Ok from.

(** Sample [Period] members and lookups for the returns-graph route. *)
Definition sample_daily : Frontend.period := Frontend.mk_period "DAILY" 1.
Definition sample_weekly : Frontend.period := Frontend.mk_period "WEEKLY" 7.
Definition sample_period_eqb (p q : Frontend.period) : bool :=
  String.eqb (Frontend.period_name p) (Frontend.period_name q)
  && Z.eqb (Frontend.period_days p) (Frontend.period_days q).
Definition sample_int_to_period (n : Z) : res Frontend.period :=
  if Z.eqb n 1 then Ok sample_daily
  else if Z.eqb n 7 then Ok sample_weekly
  else Raise (ValueError "invalid period").
(** A [build_hypervisor_returns_graph] that echoes its window and step. *)
Definition graph_echo (_ _ : string) (ini every : Z) : res (Z * Z) := Ok (ini, every).

(* ================================================================== *)
(** * Lemmas about the Python primitives *)

Lemma gather_all_ok {A} (l : list (res A)) (vs : list A) :
  l = map Ok vs -> gather l = Ok vs.
Proof.
  revert l; induction vs as [|v vs IH]; intros l ->; simpl; [done|].
  by rewrite IH.
Qed.

Lemma gather_raise_of_in {A} (l : list (res A)) (e : exc) :
  In (Raise e) l -> exists e', gather l = Raise e'.
Proof.
  induction l as [|x t IH]; simpl; [done|].
  intros [->|Hin]; [eauto|].
  destruct x as [a|e0]; [|eauto].
  destruct (IH Hin) as [e' ->]. eauto.
Qed.

Lemma digit_not_space (c : ascii) : is_digit c = true -> is_space c = false.
Proof.
  unfold is_digit, is_space. intros Hd.
  apply andb_true_iff in Hd as [H1 H2]. apply Nat.leb_le in H1.
  destruct (existsb _ _) eqn:E; [|done].
  apply existsb_exists in E as [k [Hk Heq]]. apply Nat.eqb_eq in Heq.
  simpl in Hk. lia.
Qed.

Lemma lstrip_digit (c : ascii) (r : list ascii) :
  is_digit c = true -> lstrip (c :: r) = c :: r.
Proof. intros H. simpl. by rewrite digit_not_space. Qed.

Lemma strip_digits (l : list ascii) :
  Forall (fun c => is_digit c = true) l -> strip l = l.
Proof.
  intros Hall. unfold strip.
  assert (Hl : lstrip l = l).
  { destruct l as [|c r]; [done|]. inversion Hall; subst. by apply lstrip_digit. }
  rewrite Hl.
  assert (Hr : lstrip (rev l) = rev l).
  { apply Forall_rev in Hall. destruct (rev l) as [|c r]; [done|].
    inversion Hall; subst. by apply lstrip_digit. }
  rewrite Hr. apply rev_involutive.
Qed.

Lemma int_digits_fold (acc : Z) (l : list ascii) :
  Forall (fun c => is_digit c = true) l ->
  int_digits acc l = Some (fold_left digit_step l acc).
Proof.
  revert acc; induction l as [|c r IH]; intros acc Hall; simpl; [done|].
  inversion Hall; subst. rewrite H1. by apply IH.
Qed.

Lemma ascii_of_digit_is_digit (d : Z) :
  (0 <= d < 10) -> is_digit (ascii_of_digit d) = true /\ digit_value (ascii_of_digit d) = d.
Proof.
  intros Hd. unfold is_digit, digit_value, ascii_of_digit.
  rewrite nat_ascii_embedding by lia. split.
  - apply andb_true_iff; split; apply Nat.leb_le; lia.
  - lia.
Qed.

Lemma digits_rev_spec (fuel : nat) (n : Z) :
  (0 <= n < Z.of_nat fuel) ->
  Forall (fun c => is_digit c = true) (digits_rev fuel n) /\
  digits_rev fuel n <> [] /\
  fold_left digit_step (rev (digits_rev fuel n)) 0 = n.
Proof.
  revert n; induction fuel as [|f IH]; intros n Hn; [lia|].
  destruct (ascii_of_digit_is_digit (n mod 10)) as [Hd Hv].
  { apply Z.mod_pos_bound; lia. }
  simpl. destruct (Z.eqb_spec (n / 10) 0) as [H0|H0].
  - split; [constructor; auto|]. split; [done|].
    simpl. unfold digit_step. rewrite Hv.
    pose proof (Z.div_mod n 10). lia.
  - assert (Hq : 0 <= n / 10 < Z.of_nat f).
    { split; [apply Z.div_pos; lia|].
      assert (10 <= n).
      { destruct (Z.lt_ge_cases n 10); [|done].
        exfalso. apply H0, Z.div_small. lia. }
      assert (n / 10 < n) by (apply Z.div_lt; lia). lia. }
    destruct (IH (n / 10) Hq) as [Hall [_ Hfold]].
    split; [constructor; auto|]. split; [done|].
    rewrite fold_left_app, Hfold. simpl. unfold digit_step. rewrite Hv.
    pose proof (Z.div_mod n 10). lia.
Qed.

Lemma digits_rev_length (fuel : nat) (n k : Z) :
  0 <= n < 10 ^ k -> 1 <= k -> (List.length (digits_rev fuel n) <= Z.to_nat k)%nat.
Proof.
  revert n k; induction fuel as [|f IH]; intros n k Hn Hk; simpl; [lia|].
  destruct (Z.eqb_spec (n / 10) 0) as [H0|H0]; simpl; [lia|].
  assert (Hk2 : 2 <= k).
  { destruct (Z.eq_dec k 1) as [->|]; [|lia].
    exfalso. apply H0, Z.div_small. simpl in Hn. lia. }
  assert (Hq : 0 <= n / 10 < 10 ^ (k - 1)).
  { split; [apply Z.div_pos; lia|]. apply Z.div_lt_upper_bound; [lia|].
    replace (10 * 10 ^ (k - 1)) with (10 ^ k); [lia|].
    rewrite <- Z.pow_succ_r by lia. f_equal. lia. }
  pose proof (IH (n / 10) (k - 1) Hq ltac:(lia)). lia.
Qed.

Lemma count_digits_all (l : list ascii) :
  Forall (fun c => is_digit c = true) l -> count_digits l = List.length l.
Proof.
  unfold count_digits. induction l as [|c r IH]; intros Hall; simpl; [done|].
  inversion Hall; subst. rewrite H1. simpl. by rewrite IH.
Qed.

Lemma digit_byte (c : ascii) : is_digit c = true -> (byte c <? 128) = true.
Proof.
  unfold is_digit, byte. intros H. apply andb_true_iff in H as [_ H].
  apply Nat.leb_le in H. apply Z.ltb_lt. lia.
Qed.

Lemma py_int_decimal (n : Z) : 0 <= n < 10 ^ 4300 -> py_int (decimal n) = Some n.
Proof.
  intros Hn. unfold py_int, decimal.
  rewrite list_ascii_of_string_of_list_ascii.
  destruct (digits_rev_spec (S (Z.to_nat n)) n) as [Hall [Hne Hfold]]; [lia|].
  pose proof (digits_rev_length (S (Z.to_nat n)) n 4300 Hn ltac:(lia)) as Hlen.
  apply Forall_rev in Hall.
  assert (Hascii : forallb (fun c => byte c <? 128) (rev (digits_rev (S (Z.to_nat n)) n))
                   = true).
  { apply forallb_forall. intros c Hc. apply digit_byte.
    rewrite Forall_forall in Hall. apply Hall. by apply list_elem_of_In. }
  rewrite Hascii. unfold py_int_ascii.
  rewrite count_digits_all, length_rev by done.
  assert (Hlim : (4300 <? List.length (digits_rev (S (Z.to_nat n)) n))%nat = false).
  { apply Nat.ltb_ge. lia. }
  rewrite Hlim.
  rewrite strip_digits by done.
  destruct (rev (digits_rev (S (Z.to_nat n)) n)) as [|c r] eqn:Er.
  { apply (f_equal (@rev ascii)) in Er. rewrite rev_involutive in Er. done. }
  apply Forall_cons in Hall as [Hc Hr].
  assert (Hplus : Ascii.eqb c "+" = false).
  { destruct (Ascii.eqb_spec c "+"); [subst; discriminate|done]. }
  assert (Hminus : Ascii.eqb c "-" = false).
  { destruct (Ascii.eqb_spec c "-"); [subst; discriminate|done]. }
  rewrite Hplus, Hminus. simpl. rewrite Hc, int_digits_fold by done.
  rewrite <- Hfold. simpl. done.
Qed.

Lemma split_no_sep (sep : ascii) (s : string) :
  (forall c, In c (list_ascii_of_string s) -> Ascii.eqb c sep = false) ->
  split sep s = [s].
Proof.
  induction s as [|c r IH]; intros H; simpl; [done|].
  rewrite (H c) by (simpl; auto).
  rewrite IH; [done|]. intros c' Hin. apply H. simpl. auto.
Qed.

Lemma decimal_no_dash (n : Z) :
  0 <= n -> forall c, In c (list_ascii_of_string (decimal n)) -> Ascii.eqb c "-" = false.
Proof.
  intros Hn c Hin. unfold decimal in Hin.
  rewrite list_ascii_of_string_of_list_ascii in Hin.
  destruct (digits_rev_spec (S (Z.to_nat n)) n) as [Hall _]; [lia|].
  apply Forall_rev in Hall. rewrite Forall_forall in Hall.
  apply list_elem_of_In in Hin. pose proof (Hall c Hin) as Hd.
  destruct (Ascii.eqb_spec c "-"); [subst; discriminate|done].
Qed.

Lemma utc_midnight_of_day (now m : Z) :
  m mod 86400 = 0 -> m <= now < m + 86400 -> Weekly.utc_midnight now = m.
Proof.
  intros Hm Hnow. unfold Weekly.utc_midnight.
  pose proof (Z.div_mod m 86400) as Dm. pose proof (Z.div_mod now 86400) as Dn.
  pose proof (Z.mod_pos_bound now 86400) as Bn.
  rewrite Hm in Dm. lia.
Qed.

(* ================================================================== *)
(** * Claims about [weekly_chain_usd_fees] *)

(** C2: for a start [S] and end [E], the windows built by
    [weekly_chain_usd_fees] are [floor((E - S) / 604800)] in number when
    [S <= E] and none when [S > E]; window [i] is
    [(i, S + i*U, S + (i+1)*U - 1)], so consecutive windows are
    contiguous, each spans exactly [U] seconds and all of them fit in the
    range, the dropped remainder being shorter than [U]. *)
Theorem week_timestamps_partition (S E : Z) :
  let U := Weekly.week_in_seconds in
  let l := Weekly.week_timestamps S E in
  List.length l = Z.to_nat ((E - S) / U) /\
  (S <= E -> Z.of_nat (List.length l) = (E - S) / U) /\
  (E < S -> l = []) /\
  (forall i : nat, (i < List.length l)%nat ->
     nth_error l i = Some (Z.of_nat i, S + U * Z.of_nat i, S + U * (Z.of_nat i + 1) - 1)) /\
  (forall wk st et, In (wk, st, et) l -> et - st + 1 = U /\ S <= st /\ et < E) /\
  (S <= E -> E - (S + U * Z.of_nat (List.length l)) < U).
Proof.
  intros U l. subst l U. unfold Weekly.week_timestamps, Weekly.week_in_seconds.
  set (q := (E - S) / 604800).
  assert (Hlen : List.length (map (fun week => (week, S + 604800 * week, S + 604800 * (week + 1) - 1))
                      (map Z.of_nat (seq 0 (Z.to_nat q)))) = Z.to_nat q).
  { by rewrite !length_map, length_seq. }
  pose proof (Z.div_mod (E - S) 604800) as D. pose proof (Z.mod_pos_bound (E - S) 604800) as B.
  fold q in D.
  split; [done|]. split.
  { intros HSE. rewrite Hlen. apply Z2Nat.id. apply Z.div_pos; lia. }
  split.
  { intros HES. assert (q < 0) by (apply Z.div_lt_upper_bound; lia).
    assert (Z.to_nat q = 0%nat) as -> by lia. done. }
  split.
  { intros i Hi. rewrite Hlen in Hi.
    rewrite !nth_error_map, nth_error_seq by done.
    destruct (Nat.ltb_spec i (Z.to_nat q)); [|lia]. done. }
  split.
  { intros wk st et Hin. apply in_map_iff in Hin as [w [Hw Hin]].
    injection Hw as <- <- <-. apply in_map_iff in Hin as [k [<- Hk]].
    apply in_seq in Hk. lia. }
  intros HSE. rewrite Hlen. rewrite Z2Nat.id by (apply Z.div_pos; lia). lia.
Qed.

Lemma round_small (x : Z) : Z.abs x < 2 ^ 53 -> round_to_double x = x.
Proof. intros H. unfold round_to_double. by rewrite (proj2 (Z.ltb_lt _ _) H). Qed.

Lemma round_opp (x : Z) : round_to_double (- x) = - round_to_double x.
Proof.
  unfold round_to_double. cbv zeta. rewrite Z.abs_opp.
  destruct (Z.abs x <? 2 ^ 53); [done|]. rewrite Z.sgn_opp. ring.
Qed.

(** A value of at least [2^53] has an exponent [e = log2 a - 52] of at
    least 1, and its quotient by [2^e] is at least [2^52]. *)
Lemma round_exponent (a : Z) :
  2 ^ 53 <= a ->
  53 <= Z.log2 a /\ 2 ^ 52 * 2 ^ (Z.log2 a - 52) = 2 ^ Z.log2 a /\
  2 ^ 52 <= a / 2 ^ (Z.log2 a - 52).
Proof.
  intros Ha.
  assert (Hl : 53 <= Z.log2 a) by (apply Z.log2_le_pow2; lia).
  assert (Hp : 2 ^ 52 * 2 ^ (Z.log2 a - 52) = 2 ^ Z.log2 a).
  { rewrite <- Z.pow_add_r by lia. f_equal. lia. }
  split; [done|]. split; [done|].
  apply Z.div_le_lower_bound; [apply Z.pow_pos_nonneg; lia|].
  pose proof (Z.log2_spec a ltac:(lia)). lia.
Qed.

Lemma round_ge_big (a : Z) : 2 ^ 53 <= a -> 2 ^ 53 <= round_to_double a.
Proof.
  intros Ha. unfold round_to_double. cbv zeta.
  rewrite Z.abs_eq by lia.
  rewrite (proj2 (Z.ltb_ge _ _) Ha).
  rewrite Z.sgn_pos by lia. rewrite Z.mul_1_l.
  destruct (round_exponent a Ha) as [Hl [Hp Hq]].
  assert (H53 : 2 ^ 53 <= 2 ^ Z.log2 a) by (apply Z.pow_le_mono_r; lia).
  assert (He : 0 < 2 ^ (Z.log2 a - 52)) by (apply Z.pow_pos_nonneg; lia).
  set (q := a / 2 ^ (Z.log2 a - 52)) in *.
  assert (Hm : forall q', q <= q' -> 2 ^ 53 <= q' * 2 ^ (Z.log2 a - 52)) by nia.
  repeat match goal with
         | |- context [if ?b then _ else _] => destruct b
         end; apply Hm; lia.
Qed.

(** A multiple of [2^7] below [2^60] in magnitude is a double. *)
Lemma round_multiple_128 (x : Z) :
  Z.abs x < 2 ^ 60 -> (128 | x) -> round_to_double x = x.
Proof.
  intros Hx Hd.
  destruct (Z.ltb_spec (Z.abs x) (2 ^ 53)) as [Hs|Hb]; [by apply round_small|].
  unfold round_to_double. cbv zeta. rewrite (proj2 (Z.ltb_ge _ _) Hb).
  set (a := Z.abs x) in *.
  destruct (round_exponent a Hb) as [Hl [Hp Hq]].
  assert (Hl' : Z.log2 a < 60) by (apply Z.log2_lt_pow2; lia).
  set (e := Z.log2 a - 52) in *.
  assert (Hda : (2 ^ e | a)).
  { apply (Z.divide_trans _ 128); [|by apply Z.divide_abs_r].
    exists (2 ^ (7 - e)). change 128 with (2 ^ 7).
    rewrite <- Z.pow_add_r by lia. f_equal. lia. }
  assert (He : 0 < 2 ^ e) by (apply Z.pow_pos_nonneg; lia).
  assert (Hr : a mod 2 ^ e = 0) by (apply (proj2 (Z.mod_divide a (2 ^ e) ltac:(lia))), Hda).
  assert (Hh : 0 < 2 ^ (e - 1)) by (apply Z.pow_pos_nonneg; lia).
  rewrite Hr, (proj2 (Z.ltb_lt _ _) Hh).
  assert (Hqa : a / 2 ^ e * 2 ^ e = a).
  { pose proof (Z.div_mod a (2 ^ e) ltac:(lia)). lia. }
  rewrite Hqa. unfold a. rewrite Z.mul_comm. apply Z.abs_sgn.
Qed.

Lemma int_to_float_ok (x y : Z) : int_to_float x = Ok y -> y = round_to_double x.
Proof.
  unfold int_to_float. destruct (Z.abs _ <? _); [|discriminate].
  intros H. by injection H.
Qed.

Lemma int_to_float_multiple_128 (x : Z) :
  Z.abs x < 2 ^ 60 -> (128 | x) -> int_to_float x = Ok x.
Proof.
  intros Hx Hd. unfold int_to_float. rewrite round_multiple_128 by done.
  rewrite (proj2 (Z.ltb_lt _ _)); [done|].
  apply (Z.lt_trans _ (2 ^ 60)); [done|]. apply Z.pow_lt_mono_r; lia.
Qed.

Lemma split_last_dash (s : string) :
  split "-" s = [s] -> split "-" ("last-" ++ s) = ["last"; s].
Proof. intros H. simpl. change (String.append "" s) with s. by rewrite H. Qed.

Lemma midnight_multiple_128 (m : Z) : m mod 86400 = 0 -> (128 | m).
Proof.
  intros Hm. apply (Z.divide_trans _ 86400); [exists 675; done|].
  apply (proj1 (Z.mod_divide m 86400 ltac:(lia))), Hm.
Qed.

(** ["last-N"], for an [N] small enough that [(N + 1)] weeks in seconds
    stay below [2^60] and a clock in [[0, 2^59)], resolves exactly: both
    the converted int and the difference are multiples of [2^7] below
    [2^60], hence doubles. *)
Lemma resolve_last_dash_exact (now m N : Z) :
  m mod 86400 = 0 -> m <= now < m + 86400 -> 0 <= m < 2 ^ 59 -> 0 <= N ->
  (N + 1) * Weekly.week_in_seconds < 2 ^ 60 ->
  Weekly.resolve_week_start (Weekly.WStr ("last-" ++ decimal N)) now
    = Ok (m - (N + 1) * Weekly.week_in_seconds).
Proof.
  intros Hm Hnow Hm59 HN HNb.
  pose proof (utc_midnight_of_day now m Hm Hnow) as Hmid.
  unfold Weekly.resolve_week_start.
  assert (Hs : split "-" ("last-" ++ decimal N) = ["last"; decimal N]).
  { apply split_last_dash, split_no_sep, decimal_no_dash, HN. }
  assert (Heq : String.eqb ("last-" ++ decimal N) "last" = false) by done.
  assert (Hpre : startswith ("last-" ++ decimal N) "last" = true) by done.
  assert (H4300 : N < 10 ^ 4300).
  { apply (Z.lt_trans _ (2 ^ 60)); [unfold Weekly.week_in_seconds in HNb; lia|].
    apply Z.ltb_lt. vm_compute. reflexivity. }
  rewrite Heq, Hpre, Hs. simpl. rewrite py_int_decimal by lia.
  assert (HU : (128 | Weekly.week_in_seconds)) by (exists 4725; done).
  unfold float_sub_int.
  rewrite int_to_float_multiple_128.
  2: { unfold Weekly.week_in_seconds in *. rewrite Z.abs_eq; lia. }
  2: { by apply Z.divide_mul_l. }
  rewrite Hmid. f_equal. rewrite round_multiple_128.
  - lia.
  - unfold Weekly.week_in_seconds in *. apply Z.abs_lt. lia.
  - apply Z.divide_sub_r; [by apply midnight_multiple_128|]. by apply Z.divide_mul_l.
Qed.

(** C3 (counterexample): the window start of ["last-N"] is a float,
    [.timestamp()] minus the int [604800 * (N + 1)].  For [N = 10^303],
    on 2023-11-21 (midnight [1699920000]), that int is too large to
    convert to float and the route raises [OverflowError]; for
    [N = 10^13] the start is rounded, 512 seconds away from
    midnight minus [N + 1] weeks. *)
Lemma resolve_last_relative_counterexample :
  py_int ("1" ++ zeros 303) = Some (10 ^ 303) /\
  Weekly.resolve_week_start (Weekly.WStr ("last-1" ++ zeros 303)) 1699920000
    = Raise (OverflowError "int too large to convert to float") /\
  Weekly.weekly_chain_usd_fees echo_start "ethereum" (Weekly.WStr ("last-1" ++ zeros 303))
    None 1699920000 1699920000 1699920000
    = Raise (OverflowError "int too large to convert to float") /\
  Weekly.resolve_week_start (Weekly.WStr "last-10000000000000") 1699920000
    = Ok (-6047999998300685312) /\
  -6047999998300685312 <> 1699920000 - (10 ^ 13 + 1) * Weekly.week_in_seconds.
Proof. vm_compute. repeat split; discriminate. Qed.

(** C3 (amended): for a clock reading [now] in the UTC day starting at
    midnight [m] (a datetime timestamp, so well inside [[0, 2^59)]),
    ["last"] resolves to [m - 604800] and ["last-N"] (N written in
    decimal) to [m - (N + 1) * 604800], for every [N >= 0] with
    [(N + 1) * 604800 < 2^60], that is [N] up to about [1.9e12]. *)
Theorem resolve_last_relative (now m N : Z) :
  m mod 86400 = 0 -> m <= now < m + 86400 -> 0 <= m < 2 ^ 59 -> 0 <= N ->
  (N + 1) * Weekly.week_in_seconds < 2 ^ 60 ->
  Weekly.resolve_week_start (Weekly.WStr "last") now = Ok (m - Weekly.week_in_seconds) /\
  Weekly.resolve_week_start (Weekly.WStr ("last-" ++ decimal N)) now
    = Ok (m - (N + 1) * Weekly.week_in_seconds).
Proof.
  intros Hm Hnow Hm59 HN HNb. split.
  - simpl. by rewrite (utc_midnight_of_day now m Hm Hnow).
  - by apply resolve_last_dash_exact.
Qed.

Lemma resolve_last_relative_witness :
  (1699920000 mod 86400 = 0 /\ 1699920000 <= 1699950000 < 1699920000 + 86400 /\
   0 <= 1699920000 < 2 ^ 59 /\ 0 <= 2 /\ (2 + 1) * Weekly.week_in_seconds < 2 ^ 60) /\
  Weekly.resolve_week_start (Weekly.WStr "last") 1699950000
    = Ok (1699920000 - Weekly.week_in_seconds) /\
  Weekly.resolve_week_start (Weekly.WStr ("last-" ++ decimal 2)) 1699950000
    = Ok (1699920000 - (2 + 1) * Weekly.week_in_seconds).
Proof.
  split; [repeat split; (reflexivity || lia || (unfold Weekly.week_in_seconds; lia) || (vm_compute; congruence))|].
  apply (resolve_last_relative 1699950000 1699920000 2);
    (reflexivity || lia || (unfold Weekly.week_in_seconds; lia) || (vm_compute; congruence)).
Defined.

(** C4 (counterexample): the 400 detail is the fixed text
    ["Invalid week start timestamp."], which does not name the token
    ["bogus"]; ["last-abc"] raises [ValueError] instead of a client error;
    and ["lastx-5"], which is neither ["last"] nor ["last-N"], is accepted. *)
Lemma weekly_invalid_token_counterexample :
  Weekly.weekly_chain_usd_fees echo_start "ethereum" (Weekly.WStr "bogus") None 0 0 0
    = Raise (HTTPException 400 "Invalid week start timestamp.") /\
  String.index 0 "bogus" "Invalid week start timestamp." = None /\
  Weekly.weekly_chain_usd_fees echo_start "ethereum" (Weekly.WStr "last-abc") None 0 0 0
    = Raise (ValueError "invalid literal for int() with base 10") /\
  exists starts,
    Weekly.weekly_chain_usd_fees echo_start "ethereum" (Weekly.WStr "lastx-5") None 0 0 0
      = Ok starts.
Proof. vm_compute. repeat split. eexists. reflexivity. Qed.

(** C4 (amended): a string [week_start_timestamp] other than ["last"]
    that does not both start with ["last"] and split on ["-"] into
    exactly two parts makes the route raise [HTTPException] with status
    400 and the fixed detail ["Invalid week start timestamp."]. *)
Theorem weekly_invalid_token_400 {V : Type}
    (fees : string -> option string -> Z -> Z -> Z -> res V)
    (chain s : string) (protocol : option string) (now0 now1 now2 : Z) :
  s <> "last" ->
  (startswith s "last" && (List.length (split "-" s) =? 2)%nat) = false ->
  Weekly.weekly_chain_usd_fees fees chain (Weekly.WStr s) protocol now0 now1 now2
    = Raise (HTTPException 400 "Invalid week start timestamp.").
Proof.
  intros Hne Hshape. unfold Weekly.weekly_chain_usd_fees, Weekly.resolve_week_start.
  destruct (String.eqb_spec s "last") as [->|_]; [done|].
  by rewrite Hshape.
Qed.

Lemma weekly_invalid_token_400_witness :
  ("bogus" <> "last" /\
   (startswith "bogus" "last" && (List.length (split "-" "bogus") =? 2)%nat) = false) /\
  Weekly.weekly_chain_usd_fees echo_start "ethereum" (Weekly.WStr "bogus") None 0 0 0
    = Raise (HTTPException 400 "Invalid week start timestamp.").
Proof.
  split; [split; [discriminate|reflexivity]|].
  apply weekly_invalid_token_400; [discriminate|reflexivity].
Defined.

(** C6 (counterexample): the integer start [0] is falsy, so the window
    starts at the clock reading instead: with the clock at [2U] no week
    is requested, whereas a start of [0] would give the weeks starting
    at [0] and [U]. *)
Lemma weekly_zero_start_counterexample :
  Weekly.weekly_chain_usd_fees echo_start "ethereum" (Weekly.WInt 0) None 0
    (2 * Weekly.week_in_seconds) (2 * Weekly.week_in_seconds) = Ok [] /\
  map (fun '(_, st, _) => st) (Weekly.week_timestamps 0 (2 * Weekly.week_in_seconds))
    = [0; Weekly.week_in_seconds].
Proof. vm_compute. split; reflexivity. Qed.

(** C6 (amended): an integer [week_start_timestamp] [z] is the window
    start when it is non-zero; [0] is replaced by the clock reading
    [now1]. *)
Theorem weekly_int_start {V : Type}
    (fees : string -> option string -> Z -> Z -> Z -> res V)
    (chain : string) (z : Z) (protocol : option string) (now0 now1 now2 : Z) :
  Weekly.weekly_chain_usd_fees fees chain (Weekly.WInt z) protocol now0 now1 now2
  = gather (map (fun '(weeknum, st, et) => fees chain protocol st et (weeknum + 1))
                (Weekly.week_timestamps (if Z.eqb z 0 then now1 else z) now2)).
Proof. reflexivity. Qed.

(** C1 (code_bug): the sub-window requests are gathered without
    [return_exceptions=True]: as soon as the call for one window raises,
    the route raises and no list of per-window outcomes is returned. *)
Theorem weekly_failure_not_isolated {V : Type}
    (fees : string -> option string -> Z -> Z -> Z -> res V)
    (chain : string) (w : Weekly.week_start) (protocol : option string)
    (now0 now1 now2 resolved weeknum st et : Z) (e : exc) :
  Weekly.resolve_week_start w now0 = Ok resolved ->
  In (weeknum, st, et) (Weekly.week_timestamps (Weekly.start_timestamp resolved now1) now2) ->
  fees chain protocol st et (weeknum + 1) = Raise e ->
  exists e', Weekly.weekly_chain_usd_fees fees chain w protocol now0 now1 now2 = Raise e'.
Proof.
  intros Hres Hin Hfail. unfold Weekly.weekly_chain_usd_fees. rewrite Hres. simpl.
  apply (gather_raise_of_in _ e).
  apply in_map_iff. exists (weeknum, st, et). by split.
Qed.

Lemma weekly_failure_not_isolated_witness :
  (Weekly.resolve_week_start (Weekly.WInt 1000) 0 = Ok 1000 /\
   In (1, 1000 + Weekly.week_in_seconds, 999 + 2 * Weekly.week_in_seconds)
      (Weekly.week_timestamps (Weekly.start_timestamp 1000 0)
         (1000 + 3 * Weekly.week_in_seconds)) /\
   failing_week 2 "ethereum" None (1000 + Weekly.week_in_seconds)
     (999 + 2 * Weekly.week_in_seconds) (1 + 1)
   = Raise (Upstream "get_chain_usd_fees failed")) /\
  exists e', Weekly.weekly_chain_usd_fees (failing_week 2) "ethereum" (Weekly.WInt 1000) None
               0 0 (1000 + 3 * Weekly.week_in_seconds) = Raise e'.
Proof.
  split.
  - split; [reflexivity|]. split; [vm_compute; auto|reflexivity].
  - apply (weekly_failure_not_isolated (failing_week 2) "ethereum" (Weekly.WInt 1000) None
             0 0 (1000 + 3 * Weekly.week_in_seconds) 1000 1
             (1000 + Weekly.week_in_seconds) (999 + 2 * Weekly.week_in_seconds)
             (Upstream "get_chain_usd_fees failed")).
    + reflexivity.
    + vm_compute; auto.
    + reflexivity.
Defined.

Lemma map_all_ok {A B} (f : A -> res B) (v : B) (l : list A) :
  (forall x, f x = Ok v) -> map f l = map Ok (repeat v (List.length l)).
Proof. intros H. induction l as [|x t IH]; simpl; [done|]. by rewrite H, IH. Qed.

Lemma check_deployment_absent (D : Returns.deployments) (p c : string) :
  ~ In (p, c) D -> Returns.check_deployment D p c = Raise (Returns.not_available p c).
Proof.
  intros Hnot. unfold Returns.check_deployment.
  destruct (existsb _ D) eqn:E; [|done].
  exfalso. apply existsb_exists in E as [[p' c'] [Hin Hb]].
  apply andb_true_iff in Hb as [Hp Hc].
  apply String.eqb_eq in Hp, Hc. subst. done.
Qed.

(** C7 (code_bug): [weekly_chain_usd_fees] never consults [DEPLOYMENTS]:
    for a pair that [fee_returns] rejects with a client error, the weekly
    route still requests every window and returns their results. *)
Theorem weekly_no_deployment_check {V : Type} (D : Returns.deployments) (p c : string)
    (fees : string -> option string -> Z -> Z -> Z -> res V) (v : V)
    (z now0 now1 now2 : Z) :
  ~ In (p, c) D ->
  (forall ch pr st et wn, fees ch pr st et wn = Ok v) ->
  Returns.check_deployment D p c = Raise (Returns.not_available p c) /\
  Weekly.weekly_chain_usd_fees fees c (Weekly.WInt z) (Some p) now0 now1 now2
  = Ok (repeat v (List.length
         (Weekly.week_timestamps (Weekly.start_timestamp z now1) now2))).
Proof.
  intros Hnot Hok. split; [by apply check_deployment_absent|].
  unfold Weekly.weekly_chain_usd_fees. simpl.
  apply gather_all_ok. rewrite (map_all_ok _ v); [done|].
  intros [[wn st] et]. apply Hok.
Qed.

Lemma weekly_no_deployment_check_witness :
  (~ In ("ramses", "ethereum") [("uniswapv3", "ethereum")] /\
   forall (ch : string) (pr : option string) (st et wn : Z),
     (fun _ _ _ _ _ => Ok 7) ch pr st et wn = (Ok 7 : res Z)) /\
  Returns.check_deployment [("uniswapv3", "ethereum")] "ramses" "ethereum"
    = Raise (Returns.not_available "ramses" "ethereum") /\
  Weekly.weekly_chain_usd_fees (fun _ _ _ _ _ => Ok 7) "ethereum" (Weekly.WInt 1)
    (Some "ramses") 0 0 (1 + 2 * Weekly.week_in_seconds)
  = Ok (repeat 7 (List.length
         (Weekly.week_timestamps (Weekly.start_timestamp 1 0)
            (1 + 2 * Weekly.week_in_seconds)))).
Proof.
  split; [split; [simpl; intros [H|[]]; discriminate|reflexivity]|].
  apply (weekly_no_deployment_check [("uniswapv3", "ethereum")] "ramses" "ethereum"
           (fun _ _ _ _ _ => Ok 7) 7 1 0 0 (1 + 2 * Weekly.week_in_seconds)).
  - simpl. intros [H|[]]. discriminate.
  - reflexivity.
Defined.





Lemma check_deployment_present (D : Returns.deployments) (p c : string) :
  In (p, c) D -> Returns.check_deployment D p c = Ok tt.
Proof.
  intros Hin. unfold Returns.check_deployment.
  replace (existsb _ D) with true; [done|]. symmetry.
  apply existsb_exists. exists (p, c). split; [done|].
  by rewrite !String.eqb_refl.
Qed.

Lemma valid_results_finest (d w m : res Returns.returns_all) valid :
  finest_lp d w m = Some valid -> Returns.valid_results d w m = Ok valid.
Proof. destruct d, w, m; simpl; congruence. Qed.




(* ================================================================== *)
(** * Claims about the frontend routes *)

(** C8 (code_bug): the name [build_hype_return_analysis_from_database]
    is neither imported nor defined in the frontend routers module, so
    every call of the CSV route that gets past the period conversion
    raises [NameError]: it never answers with a CSV attachment or with
    the 404 body. *)
Theorem return_detail_name_error {A : Type}
    (int_to_period : Z -> res Frontend.period) (period_daily : Frontend.period)
    (period_eqb : Frontend.period -> Frontend.period -> bool)
    (build : string -> string -> Z -> res (option A)) (get_graph_csv : A -> string)
    (chain_name hypervisor_address : string) (q : Frontend.period) (n now : Z) :
  Frontend.hypervisor_analytics_return_detail int_to_period period_daily period_eqb
    build get_graph_csv chain_name hypervisor_address (Frontend.PEnum q) now
  = Raise (NameError "build_hype_return_analysis_from_database") /\
  exists e, Frontend.hypervisor_analytics_return_detail int_to_period period_daily
    period_eqb build get_graph_csv chain_name hypervisor_address (Frontend.PInt n) now
  = Raise e.
Proof.
  split; [reflexivity|].
  unfold Frontend.hypervisor_analytics_return_detail. simpl.
  destruct (int_to_period n) as [per|e]; simpl; eauto.
Qed.

(** C9 (counterexample): with both address lists non-empty the route
    raises no client error. *)
Lemma correlation_both_lists_counterexample :
  Frontend.correlation keep_addresses correlation_result hypervisor_correlation_result
    "ethereum" (Some ["0xt"]) (Some ["0xh"]) = Ok "tokens" /\
  Frontend.correlation keep_addresses correlation_result hypervisor_correlation_result
    "ethereum" (Some ["0xt"]) (Some ["0xh"]) <> Raise Frontend.correlation_error.
Proof. split; [reflexivity|discriminate]. Qed.

(** C9 (amended): after filtering, either both address lists are empty
    and the route raises [HTTPException] 400 with the detail
    ["You must provide either token_addresses or hypervisor_address"], or
    the token list is non-empty and [get_correlation] is called with it,
    or only the hypervisor list is non-empty and
    [get_correlation_from_hypervisors] is called with it. *)
Theorem correlation_cases {V : Type} (filter_addresses : option (list string) -> list string)
    (get_correlation : list string -> list string -> res V)
    (get_correlation_from_hypervisors : string -> list string -> res V)
    (chain : string) (token_addresses hypervisor_addresses : option (list string)) :
  let r := Frontend.correlation filter_addresses get_correlation
             get_correlation_from_hypervisors chain token_addresses hypervisor_addresses in
  (filter_addresses token_addresses = [] /\ filter_addresses hypervisor_addresses = [] /\
   r = Raise (HTTPException 400
                "You must provide either token_addresses or hypervisor_address")) \/
  (filter_addresses token_addresses <> [] /\
   r = get_correlation [chain] (filter_addresses token_addresses)) \/
  (filter_addresses token_addresses = [] /\ filter_addresses hypervisor_addresses <> [] /\
   r = get_correlation_from_hypervisors chain (filter_addresses hypervisor_addresses)).
Proof.
  intros r. subst r. unfold Frontend.correlation.
  destruct (filter_addresses token_addresses) as [|t ts] eqn:Et.
  - destruct (filter_addresses hypervisor_addresses) as [|h hs] eqn:Eh.
    + left. done.
    + right; right. done.
  - right; left. done.
Qed.

(** C10: when both filtered lists are non-empty, no error is raised and
    [get_correlation] is called with the token addresses only. *)
Theorem correlation_tokens_take_precedence {V : Type}
    (filter_addresses : option (list string) -> list string)
    (get_correlation : list string -> list string -> res V)
    (get_correlation_from_hypervisors : string -> list string -> res V)
    (chain : string) (token_addresses hypervisor_addresses : option (list string)) :
  filter_addresses token_addresses <> [] ->
  filter_addresses hypervisor_addresses <> [] ->
  Frontend.correlation filter_addresses get_correlation get_correlation_from_hypervisors
    chain token_addresses hypervisor_addresses
  = get_correlation [chain] (filter_addresses token_addresses).
Proof.
  intros Ht _. unfold Frontend.correlation.
  destruct (filter_addresses token_addresses); [done|reflexivity].
Qed.

Lemma correlation_tokens_take_precedence_witness :
  (keep_addresses (Some ["0xt"]) <> [] /\ keep_addresses (Some ["0xh"]) <> []) /\
  Frontend.correlation keep_addresses correlation_result hypervisor_correlation_result
    "ethereum" (Some ["0xt"]) (Some ["0xh"])
  = correlation_result ["ethereum"] (keep_addresses (Some ["0xt"])).
Proof.
  split; [split; discriminate|].
  apply correlation_tokens_take_precedence; discriminate.
Defined.

(* ================================================================== *)
(** * Further properties of [weekly_chain_usd_fees] *)

Lemma weekly_windows_ok {V : Type}
    (fees : string -> option string -> Z -> Z -> Z -> res V)
    (chain : string) (w : Weekly.week_start) (protocol : option string)
    (now0 now1 now2 s : Z) (f : Z -> Z -> Z -> V) :
  Weekly.resolve_week_start w now0 = Ok s ->
  (forall st et wn, fees chain protocol st et wn = Ok (f st et wn)) ->
  let S := Weekly.start_timestamp s now1 in
  Weekly.weekly_chain_usd_fees fees chain w protocol now0 now1 now2
  = Ok (map (fun i => f (S + Weekly.week_in_seconds * i)
                        (S + Weekly.week_in_seconds * (i + 1) - 1) (i + 1))
            (map Z.of_nat (seq 0 (Z.to_nat ((now2 - S) / Weekly.week_in_seconds))))).
Proof.
  intros Hres Hf S. unfold Weekly.weekly_chain_usd_fees. rewrite Hres. simpl.
  fold S. unfold Weekly.week_timestamps.
  apply gather_all_ok. rewrite !map_map. apply map_ext. intros i. apply Hf.
Qed.

Lemma weeks_back_from_midnight (m now2 K : Z) :
  m <= now2 < m + 86400 -> 0 <= K ->
  (now2 - (m - K * Weekly.week_in_seconds)) / Weekly.week_in_seconds = K.
Proof.
  intros Hn HK. unfold Weekly.week_in_seconds.
  replace (now2 - (m - K * 604800)) with ((now2 - m) + K * 604800) by lia.
  rewrite Z.div_add by lia. rewrite Z.div_small by lia. lia.
Qed.

Lemma weekly_windows_back_from_midnight {V : Type}
    (fees : string -> option string -> Z -> Z -> Z -> res V)
    (chain : string) (w : Weekly.week_start) (protocol : option string)
    (now0 now1 now2 m K : Z) (f : Z -> Z -> Z -> V) :
  Weekly.resolve_week_start w now0 = Ok (m - K * Weekly.week_in_seconds) ->
  m <= now2 < m + 86400 -> 0 <= K -> m <> K * Weekly.week_in_seconds ->
  (forall st et wn, fees chain protocol st et wn = Ok (f st et wn)) ->
  Weekly.weekly_chain_usd_fees fees chain w protocol now0 now1 now2
  = Ok (map (fun i => f (m - (K - i) * Weekly.week_in_seconds)
                        (m - (K - 1 - i) * Weekly.week_in_seconds - 1) (i + 1))
            (map Z.of_nat (seq 0 (Z.to_nat K)))).
Proof.
  intros Hres Hn HK Hne Hf.
  rewrite (weekly_windows_ok fees chain w protocol now0 now1 now2 _ f Hres Hf).
  unfold Weekly.start_timestamp.
  destruct (Z.eqb_spec (m - K * Weekly.week_in_seconds) 0); [lia|].
  rewrite weeks_back_from_midnight by done.
  f_equal. apply map_ext. intros i. unfold Weekly.week_in_seconds. f_equal; lia.
Qed.

(** With the clock readings of the string block and of the end inside
    the same UTC day starting at midnight [m] (in [[0, 2^59)]), ["last-N"]
    for [N >= 0] with [(N + 1) * U < 2^60] makes the route return exactly
    [N + 1] results, one per full week [m - (N+1-i)*U .. m - (N-i)*U - 1]
    for [i = 0 .. N], with week numbers [1 .. N+1], the last week ending
    one second before [m] -- unless [m] is exactly [N + 1] weeks after
    the epoch, where the start is [0.0] (see
    [weekly_last_n_epoch_empty]). *)
Theorem weekly_last_n_windows {V : Type}
    (fees : string -> option string -> Z -> Z -> Z -> res V)
    (chain : string) (protocol : option string) (now0 now1 now2 m N : Z)
    (f : Z -> Z -> Z -> V) :
  m mod 86400 = 0 -> m <= now0 < m + 86400 -> m <= now2 < m + 86400 ->
  0 <= m < 2 ^ 59 -> 0 <= N -> (N + 1) * Weekly.week_in_seconds < 2 ^ 60 ->
  m <> (N + 1) * Weekly.week_in_seconds ->
  (forall st et wn, fees chain protocol st et wn = Ok (f st et wn)) ->
  Weekly.weekly_chain_usd_fees fees chain (Weekly.WStr ("last-" ++ decimal N)) protocol
    now0 now1 now2
  = Ok (map (fun i => f (m - (N + 1 - i) * Weekly.week_in_seconds)
                        (m - (N - i) * Weekly.week_in_seconds - 1) (i + 1))
            (map Z.of_nat (seq 0 (Z.to_nat (N + 1))))).
Proof.
  intros Hm H0 H2 Hm59 HN HNb Hne Hf.
  rewrite (weekly_windows_back_from_midnight fees chain _ protocol now0 now1 now2 m (N + 1) f);
    try done; try lia.
  - f_equal. apply map_ext. intros i. do 2 f_equal; lia.
  - by apply resolve_last_dash_exact.
Qed.

Lemma weekly_last_n_windows_witness :
  (1699920000 mod 86400 = 0 /\ 1699920000 <= 1699950000 < 1699920000 + 86400 /\
   1699920000 <= 1699960000 < 1699920000 + 86400 /\ 0 <= 1699920000 < 2 ^ 59 /\
   0 <= 1 /\ (1 + 1) * Weekly.week_in_seconds < 2 ^ 60 /\
   1699920000 <> (1 + 1) * Weekly.week_in_seconds /\
   forall st et wn, echo_start "ethereum" None st et wn = Ok ((fun st _ _ => st) st et wn)) /\
  Weekly.weekly_chain_usd_fees echo_start "ethereum" (Weekly.WStr ("last-" ++ decimal 1)) None
    1699950000 1699955000 1699960000
  = Ok (map (fun i => (fun st _ _ => st) (1699920000 - (1 + 1 - i) * Weekly.week_in_seconds)
                        (1699920000 - (1 - i) * Weekly.week_in_seconds - 1) (i + 1))
            (map Z.of_nat (seq 0 (Z.to_nat (1 + 1))))).
Proof.
  split.
  { repeat split; try (reflexivity || lia || (unfold Weekly.week_in_seconds; lia) || (vm_compute; congruence)). }
  apply (weekly_last_n_windows echo_start "ethereum" None 1699950000 1699955000 1699960000
           1699920000 1 (fun st _ _ => st));
    (reflexivity || lia || (vm_compute; congruence) || (intros; reflexivity)).
Defined.

(** When the UTC midnight [m] of the clock is exactly [N + 1] weeks after
    the epoch (any Thursday, for the matching [N]), ["last-N"] resolves
    to the start [0.0], which is falsy: the start becomes the clock
    reading [now1], and with the end read less than a week later the
    route returns no week at all. *)
Theorem weekly_last_n_epoch_empty {V : Type}
    (fees : string -> option string -> Z -> Z -> Z -> res V)
    (chain : string) (protocol : option string) (now0 now1 now2 m N : Z) :
  m mod 86400 = 0 -> m <= now0 < m + 86400 -> 0 <= m < 2 ^ 59 -> 0 <= N ->
  m = (N + 1) * Weekly.week_in_seconds ->
  now1 <= now2 < now1 + Weekly.week_in_seconds ->
  Weekly.weekly_chain_usd_fees fees chain (Weekly.WStr ("last-" ++ decimal N)) protocol
    now0 now1 now2 = Ok [].
Proof.
  intros Hm H0 Hm59 HN Heq H12.
  unfold Weekly.weekly_chain_usd_fees.
  rewrite (resolve_last_dash_exact now0 m N) by lia. simpl.
  unfold Weekly.start_timestamp.
  replace (m - (N + 1) * Weekly.week_in_seconds) with 0 by lia. simpl.
  unfold Weekly.week_timestamps.
  rewrite Z.div_small by (unfold Weekly.week_in_seconds in *; lia). done.
Qed.

Lemma weekly_last_n_epoch_empty_witness :
  (1700697600 mod 86400 = 0 /\ 1700697600 <= 1700700000 < 1700697600 + 86400 /\
   0 <= 1700697600 < 2 ^ 59 /\ 0 <= 2811 /\
   1700697600 = (2811 + 1) * Weekly.week_in_seconds /\
   1700700001 <= 1700700002 < 1700700001 + Weekly.week_in_seconds) /\
  Weekly.weekly_chain_usd_fees echo_start "ethereum" (Weekly.WStr ("last-" ++ decimal 2811))
    None 1700700000 1700700001 1700700002 = Ok [].
Proof.
  split.
  { repeat split; try (reflexivity || lia || (unfold Weekly.week_in_seconds; lia) || (vm_compute; congruence)). }
  apply weekly_last_n_epoch_empty with (m := 1700697600);
    (reflexivity || lia || (unfold Weekly.week_in_seconds; lia) || (vm_compute; congruence)).
Defined.

(** With the same-day clock readings, ["last"] makes the route return a
    single result, for the week [m - U .. m - 1] with week number 1. *)
Theorem weekly_last_single_window {V : Type}
    (fees : string -> option string -> Z -> Z -> Z -> res V)
    (chain : string) (protocol : option string) (now0 now1 now2 m : Z)
    (f : Z -> Z -> Z -> V) :
  m mod 86400 = 0 -> m <= now0 < m + 86400 -> m <= now2 < m + 86400 ->
  m <> Weekly.week_in_seconds ->
  (forall st et wn, fees chain protocol st et wn = Ok (f st et wn)) ->
  Weekly.weekly_chain_usd_fees fees chain (Weekly.WStr "last") protocol now0 now1 now2
  = Ok [f (m - Weekly.week_in_seconds) (m - 1) 1].
Proof.
  intros Hm H0 H2 Hne Hf.
  rewrite (weekly_windows_back_from_midnight fees chain _ protocol now0 now1 now2 m 1 f);
    try done; try lia.
  - simpl. repeat f_equal; unfold Weekly.week_in_seconds; lia.
  - simpl. rewrite (utc_midnight_of_day now0 m) by done. f_equal; lia.
Qed.

Lemma weekly_last_single_window_witness :
  (0 mod 86400 = 0 /\ 0 <= 5000 < 0 + 86400 /\ 0 <= 6000 < 0 + 86400 /\
   0 <> Weekly.week_in_seconds /\
   forall st et wn, echo_start "ethereum" None st et wn = Ok ((fun st _ _ => st) st et wn)) /\
  Weekly.weekly_chain_usd_fees echo_start "ethereum" (Weekly.WStr "last") None 5000 0 6000
  = Ok [(fun st _ _ => st) (0 - Weekly.week_in_seconds) (0 - 1) 1].
Proof.
  split.
  { split; [reflexivity|]. split; [lia|]. split; [lia|]. split; [discriminate|].
    intros; reflexivity. }
  apply (weekly_last_single_window echo_start "ethereum" None 5000 0 6000 0
           (fun st _ _ => st)); try reflexivity; try lia.
  discriminate.
Defined.

(** When every call of the fee collaborator returns, the route returns
    one result per window, in window order: result [i] is the answer for
    [start + i*U .. start + (i+1)*U - 1] with the 1-based week number
    [i + 1], and there are [floor((end - start) / U)] of them (none when
    that is not positive). *)
Theorem weekly_results_per_window {V : Type}
    (fees : string -> option string -> Z -> Z -> Z -> res V)
    (chain : string) (w : Weekly.week_start) (protocol : option string)
    (now0 now1 now2 s : Z) (f : Z -> Z -> Z -> V) :
  Weekly.resolve_week_start w now0 = Ok s ->
  (forall st et wn, fees chain protocol st et wn = Ok (f st et wn)) ->
  let S := Weekly.start_timestamp s now1 in
  exists vs, Weekly.weekly_chain_usd_fees fees chain w protocol now0 now1 now2 = Ok vs /\
    List.length vs = Z.to_nat ((now2 - S) / Weekly.week_in_seconds) /\
    forall i : nat, (i < List.length vs)%nat ->
      nth_error vs i = Some (f (S + Weekly.week_in_seconds * Z.of_nat i)
                               (S + Weekly.week_in_seconds * (Z.of_nat i + 1) - 1)
                               (Z.of_nat i + 1)).
Proof.
  intros Hres Hf S.
  eexists. split; [apply (weekly_windows_ok fees chain w protocol now0 now1 now2 s f Hres Hf)|].
  fold S. split; [by rewrite !length_map, length_seq|].
  intros i Hi. rewrite !length_map, length_seq in Hi.
  rewrite !nth_error_map, nth_error_seq.
  destruct (Nat.ltb_spec i (Z.to_nat ((now2 - S) / Weekly.week_in_seconds))); [done|lia].
Qed.

Lemma weekly_results_per_window_witness :
  (Weekly.resolve_week_start (Weekly.WInt 100) 0 = Ok 100 /\
   forall st et wn, echo_start "ethereum" None st et wn = Ok ((fun st _ _ => st) st et wn)) /\
  let S := Weekly.start_timestamp 100 0 in
  exists vs, Weekly.weekly_chain_usd_fees echo_start "ethereum" (Weekly.WInt 100) None
               0 0 (100 + 2 * Weekly.week_in_seconds) = Ok vs /\
    List.length vs = Z.to_nat ((100 + 2 * Weekly.week_in_seconds - S) / Weekly.week_in_seconds) /\
    forall i : nat, (i < List.length vs)%nat ->
      nth_error vs i = Some ((fun st _ _ => st) (S + Weekly.week_in_seconds * Z.of_nat i)
                               (S + Weekly.week_in_seconds * (Z.of_nat i + 1) - 1)
                               (Z.of_nat i + 1)).
Proof.
  split; [split; [reflexivity|intros; reflexivity]|].
  apply (weekly_results_per_window echo_start "ethereum" (Weekly.WInt 100) None
           0 0 (100 + 2 * Weekly.week_in_seconds) 100 (fun st _ _ => st));
    [reflexivity|intros; reflexivity].
Defined.

(** A non-zero integer start less than one week before the end clock
    reading (or after it) gives no window: the route returns the empty
    list without calling the fee collaborator. *)
Theorem weekly_short_range_empty {V : Type}
    (fees : string -> option string -> Z -> Z -> Z -> res V)
    (chain : string) (z : Z) (protocol : option string) (now0 now1 now2 : Z) :
  z <> 0 -> now2 - z < Weekly.week_in_seconds ->
  Weekly.weekly_chain_usd_fees fees chain (Weekly.WInt z) protocol now0 now1 now2 = Ok [].
Proof.
  intros Hz Hshort. unfold Weekly.weekly_chain_usd_fees, Weekly.start_timestamp. simpl.
  destruct (Z.eqb_spec z 0); [done|].
  unfold Weekly.week_timestamps.
  assert ((now2 - z) / Weekly.week_in_seconds < 1).
  { apply Z.div_lt_upper_bound; unfold Weekly.week_in_seconds in *; lia. }
  assert (Z.to_nat ((now2 - z) / Weekly.week_in_seconds) = 0%nat) as -> by lia.
  done.
Qed.

Lemma weekly_short_range_empty_witness :
  (2000 <> 0 /\ 1000 - 2000 < Weekly.week_in_seconds) /\
  Weekly.weekly_chain_usd_fees (failing_week 1) "ethereum" (Weekly.WInt 2000) None 0 0 1000
  = Ok [].
Proof.
  split; [split; [discriminate|reflexivity]|].
  apply weekly_short_range_empty; [discriminate|reflexivity].
Defined.

(** A token after ["last-"] that contains no dash and that [int()] does
    not accept makes the route raise [ValueError] from [int()] (an HTTP
    500), not the 400 client error. *)
Theorem weekly_bad_offset_value_error {V : Type}
    (fees : string -> option string -> Z -> Z -> Z -> res V)
    (chain t : string) (protocol : option string) (now0 now1 now2 : Z) :
  (forall c, In c (list_ascii_of_string t) -> Ascii.eqb c "-" = false) ->
  py_int t = None ->
  exists msg,
    Weekly.weekly_chain_usd_fees fees chain (Weekly.WStr ("last-" ++ t)) protocol now0 now1 now2
    = Raise (ValueError msg).
Proof.
  intros Hnd Hbad. unfold Weekly.weekly_chain_usd_fees, Weekly.resolve_week_start.
  assert (Hs : split "-" ("last-" ++ t) = ["last"; t]) by (by apply split_last_dash, split_no_sep).
  assert (Heq : String.eqb ("last-" ++ t) "last" = false) by done.
  assert (Hpre : startswith ("last-" ++ t) "last" = true) by done.
  rewrite Heq, Hpre, Hs. simpl. rewrite Hbad. by eexists.
Qed.

Lemma weekly_bad_offset_value_error_witness :
  ((forall c, In c (list_ascii_of_string "٣x") -> Ascii.eqb c "-" = false) /\
   py_int "٣x" = None) /\
  exists msg,
    Weekly.weekly_chain_usd_fees echo_start "ethereum" (Weekly.WStr ("last-" ++ "٣x")) None 0 0 0
    = Raise (ValueError msg).
Proof.
  assert (Hnd : forall c, In c (list_ascii_of_string "٣x") -> Ascii.eqb c "-" = false).
  { simpl. intros c Hc. repeat destruct Hc as [<-|Hc]; try reflexivity. destruct Hc. }
  assert (Hbad : py_int "٣x" = None) by (vm_compute; reflexivity).
  split; [split; [exact Hnd|exact Hbad]|].
  exact (weekly_bad_offset_value_error echo_start "ethereum" "٣x" None 0 0 0 Hnd Hbad).
Defined.

Lemma in_lstrip (x : ascii) (l : list ascii) : In x (lstrip l) -> In x l.
Proof.
  induction l as [|c r IH]; simpl; [done|].
  destruct (is_space c); [intros H; right; auto|done].
Qed.

Lemma in_strip (x : ascii) (l : list ascii) : In x (strip l) -> In x l.
Proof.
  unfold strip. intros H. apply in_rev in H. apply in_lstrip in H.
  apply in_rev in H. by apply in_lstrip.
Qed.

Lemma digit_value_nonneg (c : ascii) : is_digit c = true -> 0 <= digit_value c.
Proof.
  unfold is_digit, digit_value. intros H.
  apply andb_true_iff in H as [H _]. apply Nat.leb_le in H. lia.
Qed.

Lemma int_digits_nonneg (k : nat) (acc : Z) (l : list ascii) (n : Z) :
  (List.length l <= k)%nat -> 0 <= acc -> int_digits acc l = Some n -> 0 <= n.
Proof.
  revert acc l; induction k as [|k IH]; intros acc l Hlen Hacc.
  - destruct l; [simpl; congruence|simpl in Hlen; lia].
  - destruct l as [|c r]; simpl; [congruence|]. simpl in Hlen.
    destruct (is_digit c) eqn:Hc.
    + apply IH; [lia|]. pose proof (digit_value_nonneg c Hc). lia.
    + destruct (Ascii.eqb c "_"); [|discriminate].
      destruct r as [|d r']; [discriminate|].
      destruct (is_digit d) eqn:Hd; [|discriminate].
      apply IH; [simpl in Hlen; lia|]. pose proof (digit_value_nonneg d Hd). lia.
Qed.

Lemma int_unsigned_nonneg (l : list ascii) (n : Z) : int_unsigned l = Some n -> 0 <= n.
Proof.
  destruct l as [|c r]; simpl; [discriminate|].
  destruct (is_digit c) eqn:Hc; [|discriminate].
  apply (int_digits_nonneg (List.length r)); [lia|]. by apply digit_value_nonneg.
Qed.

Lemma split_parts_no_sep (sep : ascii) (s part : string) :
  In part (split sep s) ->
  forall c, In c (list_ascii_of_string part) -> Ascii.eqb c sep = false.
Proof.
  revert part; induction s as [|x r IH]; intros part Hin c Hc; simpl in Hin.
  - destruct Hin as [<-|[]]. done.
  - destruct (Ascii.eqb x sep) eqn:Hx.
    + destruct Hin as [<-|Hin]; [done|]. by apply (IH part).
    + destruct (split sep r) as [|h t] eqn:Es.
      * destruct Hin as [<-|[]]. simpl in Hc. destruct Hc as [<-|[]]. done.
      * destruct Hin as [<-|Hin].
        -- simpl in Hc. destruct Hc as [<-|Hc]; [done|].
           apply (IH h); [by left|done].
        -- apply (IH part); [by right|done].
Qed.

Lemma py_int_ascii_nonneg (l : list ascii) (n : Z) :
  (forall c, In c l -> Ascii.eqb c "-" = false) ->
  py_int_ascii l = Some n -> 0 <= n.
Proof.
  intros Hnd. unfold py_int_ascii. destruct (4300 <? count_digits l)%nat; [discriminate|].
  destruct (strip l) as [|c r] eqn:E; [discriminate|].
  destruct (Ascii.eqb c "+"); [apply int_unsigned_nonneg|].
  destruct (Ascii.eqb c "-") eqn:Hm.
  - exfalso. assert (Hin : In c l) by (apply (in_strip c); rewrite E; by left).
    rewrite (Hnd c Hin) in Hm. discriminate.
  - apply int_unsigned_nonneg.
Qed.

Lemma to_decimal_range (cp d : Z) : to_decimal cp = Some d -> 0 <= d <= 9.
Proof.
  unfold to_decimal. destruct (List.find _ _) as [z|] eqn:E; [|discriminate].
  intros H. injection H as <-. apply find_some in E as [_ E].
  apply andb_true_iff in E as [E1 E2]. apply Z.leb_le in E1, E2. lia.
Qed.

Lemma transform_no_dash (cps : list Z) :
  ~ In 45 cps ->
  forall c, In c (transform_decimal_and_space cps) -> Ascii.eqb c "-" = false.
Proof.
  induction cps as [|x r IH]; intros Hn c Hc; simpl in Hc; [done|].
  assert (Hr : ~ In 45 r) by (intros H; apply Hn; by right).
  destruct (x <? 127) eqn:Hx.
  - destruct Hc as [<-|Hc]; [|by apply IH].
    destruct (Ascii.eqb (ascii_of_nat (Z.to_nat x)) "-") eqn:E; [|done].
    apply Ascii.eqb_eq in E.
    exfalso. apply Hn. left. apply Z.ltb_lt in Hx.
    apply (f_equal nat_of_ascii) in E. rewrite nat_ascii_embedding in E by lia.
    change (nat_of_ascii "-") with 45%nat in E. lia.
  - destruct (unicode_space x).
    + destruct Hc as [<-|Hc]; [done|by apply IH].
    + destruct (to_decimal x) as [d|] eqn:Hd.
      * destruct Hc as [<-|Hc]; [|by apply IH].
        pose proof (to_decimal_range x d Hd).
        destruct (Ascii.eqb (ascii_of_nat (48 + Z.to_nat d)) "-") eqn:E; [|done].
    apply Ascii.eqb_eq in E.
        apply (f_equal nat_of_ascii) in E. rewrite nat_ascii_embedding in E by lia.
        change (nat_of_ascii "-") with 45%nat in E. lia.
      * destruct Hc as [<-|[]]. done.
Qed.

Ltac split_bool :=
  repeat match goal with
  | H : (_ && _) = true |- _ => apply andb_true_iff in H as [? ?]
  | H : (_ <=? _) = true |- _ => apply Z.leb_le in H
  | H : (_ <? _) = true |- _ => apply Z.ltb_lt in H
  | H : continuation _ = true |- _ => unfold continuation in H
  end.

(** A code point 45 (the dash) in a strict UTF-8 decoding comes from a
    dash byte: every multi-byte sequence decodes to a code point of at
    least 128. *)
Lemma utf8_decode_dash (k : nat) (l : list ascii) (cps : list Z) :
  (List.length l <= k)%nat -> utf8_decode l = Some cps -> In 45 cps -> In "-"%char l.
Proof.
  revert l cps; induction k as [|k IH]; intros l cps Hlen Hdec Hin.
  - destruct l; [|simpl in Hlen; lia]. simpl in Hdec. injection Hdec as <-. destruct Hin.
  - destruct l as [|b0 r]; [simpl in Hdec; injection Hdec as <-; destruct Hin|].
    simpl in Hlen. simpl in Hdec.
    destruct (byte b0 <? 128) eqn:H1.
    + destruct (utf8_decode r) as [t|] eqn:Hr; [|discriminate].
      simpl in Hdec. injection Hdec as <-. destruct Hin as [E|Hin].
      * left. rewrite <- (ascii_nat_embedding b0). unfold byte in E.
        assert (Hb : nat_of_ascii b0 = 45%nat) by lia. by rewrite Hb.
      * right. apply (IH r t); [lia|done|done].
    + destruct ((194 <=? byte b0) && (byte b0 <? 224)) eqn:H2.
      { destruct r as [|b1 r1]; [discriminate|].
        destruct (continuation b1) eqn:Hc1; [|discriminate].
        destruct (utf8_decode r1) as [t|] eqn:Hr; [|discriminate].
        simpl in Hdec. injection Hdec as <-. split_bool. destruct Hin as [E|Hin]; [lia|].
        right. right. apply (IH r1 t); [simpl in Hlen; lia|done|done]. }
      destruct ((224 <=? byte b0) && (byte b0 <? 240)) eqn:H3.
      { destruct r as [|b1 [|b2 r2]]; [discriminate|discriminate|].
        match type of Hdec with
        | (if ?c then _ else _) = _ => destruct c eqn:Hc; [|discriminate]
        end.
        destruct (utf8_decode r2) as [t|] eqn:Hr; [|discriminate].
        simpl in Hdec. injection Hdec as <-. split_bool. destruct Hin as [E|Hin]; [lia|].
        right. right. right. apply (IH r2 t); [simpl in Hlen; lia|done|done]. }
      destruct ((240 <=? byte b0) && (byte b0 <? 245)) eqn:H4; [|discriminate].
      destruct r as [|b1 [|b2 [|b3 r3]]]; [discriminate|discriminate|discriminate|].
      match type of Hdec with
      | (if ?c then _ else _) = _ => destruct c eqn:Hc; [|discriminate]
      end.
      destruct (utf8_decode r3) as [t|] eqn:Hr; [|discriminate].
      simpl in Hdec. injection Hdec as <-. split_bool. destruct Hin as [E|Hin]; [lia|].
      right. right. right. right. apply (IH r3 t); [simpl in Hlen; lia|done|done].
Qed.

Lemma py_int_nonneg (s : string) (n : Z) :
  (forall c, In c (list_ascii_of_string s) -> Ascii.eqb c "-" = false) ->
  py_int s = Some n -> 0 <= n.
Proof.
  intros Hnd. unfold py_int.
  destruct (forallb _ _); [by apply py_int_ascii_nonneg|].
  destruct (utf8_decode (list_ascii_of_string s)) as [cps|] eqn:Hd; [|discriminate].
  apply py_int_ascii_nonneg. apply transform_no_dash. intros H45.
  pose proof (utf8_decode_dash _ _ cps (le_n _) Hd H45) as Hin.
  specialize (Hnd _ Hin). vm_compute in Hnd. discriminate.
Qed.

(** Every string [week_start_timestamp] the route accepts resolves, for a
    clock reading in [[0, 2^52)], to a start no later than one week before
    the UTC midnight of the clock reading: the offset after ["last-"] can
    never be negative, since a second dash makes the split have three
    parts, and rounding to a double cannot move the difference above it. *)
Theorem resolve_string_not_after_last (s : string) (now v : Z) :
  0 <= now < 2 ^ 52 ->
  Weekly.resolve_week_start (Weekly.WStr s) now = Ok v ->
  v <= Weekly.utc_midnight now - Weekly.week_in_seconds.
Proof.
  intros Hclk.
  assert (Hm : 0 <= Weekly.utc_midnight now < 2 ^ 52).
  { unfold Weekly.utc_midnight.
    pose proof (Z.mod_pos_bound now 86400 ltac:(lia)).
    pose proof (Z.mod_le now 86400 ltac:(lia) ltac:(lia)). lia. }
  unfold Weekly.resolve_week_start.
  destruct (String.eqb s "last"); [intros H; injection H as <-; lia|].
  destruct (startswith s "last" && (List.length (split "-" s) =? 2)%nat) eqn:Hshape;
    [|discriminate].
  destruct (py_int (nth 1 (split "-" s) "")) as [n|] eqn:Hn; [|discriminate].
  apply andb_true_iff in Hshape as [_ Hlen]. apply Nat.eqb_eq in Hlen.
  assert (Hin : In (nth 1 (split "-" s) "") (split "-" s)) by (apply nth_In; lia).
  pose proof (py_int_nonneg _ n (split_parts_no_sep "-" s _ Hin) Hn) as Hn0.
  unfold float_sub_int.
  destruct (int_to_float (Weekly.week_in_seconds * (n + 1))) as [k|e] eqn:Hk;
    [|discriminate].
  intros H. injection H as <-. apply int_to_float_ok in Hk.
  set (m := Weekly.utc_midnight now) in *.
  unfold Weekly.week_in_seconds in *.
  destruct (Z.ltb_spec (604800 * (n + 1)) (2 ^ 53)) as [Hs|Hb].
  - rewrite round_small in Hk by (rewrite Z.abs_eq; lia). subst k.
    rewrite round_small by (apply Z.abs_lt; lia). lia.
  - pose proof (round_ge_big _ Hb) as Hkb. rewrite <- Hk in Hkb.
    replace (m - k) with (- (k - m)) by lia. rewrite round_opp.
    destruct (Z.ltb_spec (k - m) (2 ^ 53)).
    + rewrite round_small by (rewrite Z.abs_eq; lia). lia.
    + pose proof (round_ge_big (k - m) ltac:(lia)). lia.
Qed.

Lemma resolve_string_not_after_last_witness :
  (0 <= 90000 < 2 ^ 52 /\
   Weekly.resolve_week_start (Weekly.WStr "last-٣") 90000 = Ok (86400 - 4 * 604800)) /\
  (86400 - 4 * 604800) <= Weekly.utc_midnight 90000 - Weekly.week_in_seconds.
Proof.
  assert (H1 : 0 <= 90000 < 2 ^ 52) by lia.
  assert (H2 : Weekly.resolve_week_start (Weekly.WStr "last-٣") 90000
               = Ok (86400 - 4 * 604800)) by (vm_compute; reflexivity).
  split; [split; [exact H1|exact H2]|].
  exact (resolve_string_not_after_last "last-٣" 90000 _ H1 H2).
Defined.

(* ================================================================== *)
(** * Further properties of the internal routes *)

(** [gross_fees] and [all_chain_usd_fees] reject a given protocol that is
    not deployed on the chain with a 400 whose detail is
    ["<protocol> on <chain> not available."], without calling the
    collaborator. *)
Theorem passthrough_rejects_undeployed {V : Type} (collaborator : option string -> string -> V)
    (D : Returns.deployments) (p c : string) :
  ~ In (p, c) D ->
  Returns.guarded_passthrough collaborator D c (Some p)
  = Raise (HTTPException 400 (p ++ " on " ++ c ++ " not available.")).
Proof.
  intros Hnot. unfold Returns.guarded_passthrough, Returns.check_optional_deployment.
  by rewrite check_deployment_absent.
Qed.

Lemma passthrough_rejects_undeployed_witness :
  ~ In ("ramses", "ethereum") [("uniswapv3", "ethereum")] /\
  Returns.guarded_passthrough (fun _ _ => 0) [("uniswapv3", "ethereum")] "ethereum"
    (Some "ramses")
  = Raise (HTTPException 400 ("ramses" ++ " on " ++ "ethereum" ++ " not available.")).
Proof.
  assert (H : ~ In ("ramses", "ethereum") [("uniswapv3", "ethereum")]).
  { simpl. intros [E|[]]. discriminate. }
  split; [exact H|]. by apply passthrough_rejects_undeployed.
Defined.

(** Without a protocol, or with a deployed one, [gross_fees] and
    [all_chain_usd_fees] return the collaborator's result unchanged. *)
Theorem passthrough_allows_deployed {V : Type} (collaborator : option string -> string -> V)
    (D : Returns.deployments) (protocol : option string) (c : string) :
  (protocol = None \/ exists p, protocol = Some p /\ In (p, c) D) ->
  Returns.guarded_passthrough collaborator D c protocol = Ok (collaborator protocol c).
Proof.
  intros [->|[p [-> Hin]]]; [done|].
  unfold Returns.guarded_passthrough, Returns.check_optional_deployment.
  by rewrite check_deployment_present.
Qed.

Lemma passthrough_allows_deployed_witness :
  (Some "uniswapv3" = None \/
   exists p, Some "uniswapv3" = Some p /\ In (p, "ethereum") [("uniswapv3", "ethereum")]) /\
  Returns.guarded_passthrough (fun _ _ => 0) [("uniswapv3", "ethereum")] "ethereum"
    (Some "uniswapv3") = Ok ((fun _ _ => 0) (Some "uniswapv3") "ethereum").
Proof.
  assert (H : Some "uniswapv3" = None \/
   exists p, Some "uniswapv3" = Some p /\ In (p, "ethereum") [("uniswapv3", "ethereum")]).
  { right. exists "uniswapv3". split; [done|by left]. }
  split; [exact H|]. by apply passthrough_allows_deployed.
Defined.

(** [fee_returns] rejects an undeployed pair with the 400
    ["<protocol> on <chain> not available."] whatever [fee_returns_all]
    would answer. *)
Theorem fee_returns_rejects_undeployed
    (fee_returns_all : string -> string -> Z -> res Returns.returns_all)
    (D : Returns.deployments) (p c : string) :
  ~ In (p, c) D ->
  Returns.fee_returns fee_returns_all D p c
  = Raise (HTTPException 400 (p ++ " on " ++ c ++ " not available.")).
Proof.
  intros Hnot. unfold Returns.fee_returns. by rewrite check_deployment_absent.
Qed.

Lemma fee_returns_rejects_undeployed_witness :
  ~ In ("ramses", "ethereum") [("uniswapv3", "ethereum")] /\
  Returns.fee_returns (fun _ _ _ => Ok sample_returns) [("uniswapv3", "ethereum")]
    "ramses" "ethereum"
  = Raise (HTTPException 400 ("ramses" ++ " on " ++ "ethereum" ++ " not available.")).
Proof.
  assert (H : ~ In ("ramses", "ethereum") [("uniswapv3", "ethereum")]).
  { simpl. intros [E|[]]. discriminate. }
  split; [exact H|]. by apply fee_returns_rejects_undeployed.
Defined.

(** For a deployed pair whose daily, weekly and monthly calls all raise,
    [fee_returns] raises [TypeError] from subscripting the monthly
    exception object. *)
Theorem fee_returns_all_failed_type_error
    (fee_returns_all : string -> string -> Z -> res Returns.returns_all)
    (D : Returns.deployments) (p c : string) (e1 e7 e30 : exc) :
  In (p, c) D ->
  fee_returns_all p c 1 = Raise e1 -> fee_returns_all p c 7 = Raise e7 ->
  fee_returns_all p c 30 = Raise e30 ->
  Returns.fee_returns fee_returns_all D p c
  = Raise (TypeError "'Exception' object is not subscriptable").
Proof.
  intros Hin H1 H7 H30. unfold Returns.fee_returns.
  rewrite check_deployment_present by done. simpl. by rewrite H1, H7, H30.
Qed.

Lemma fee_returns_all_failed_type_error_witness :
  (In ("uniswapv3", "ethereum") [("uniswapv3", "ethereum")] /\
   (fun _ _ _ => Raise (Upstream "down")) "uniswapv3" "ethereum" 1
     = (Raise (Upstream "down") : res Returns.returns_all)) /\
  Returns.fee_returns (fun _ _ _ => Raise (Upstream "down")) [("uniswapv3", "ethereum")]
    "uniswapv3" "ethereum"
  = Raise (TypeError "'Exception' object is not subscriptable").
Proof.
  split; [split; [by left|reflexivity]|].
  apply (fee_returns_all_failed_type_error _ _ _ _ (Upstream "down") (Upstream "down")
           (Upstream "down")); [by left|reflexivity|reflexivity|reflexivity].
Defined.

Lemma fill_periods_key_error (h : string) (ps : list (string * res Returns.returns_all))
    (o : Returns.fee_returns_output) (e : exc) :
  Returns.fill_periods h ps o = Raise e -> e = KeyError h.
Proof.
  revert o; induction ps as [|[name [r|e0]] t IH]; intros o; simpl; [discriminate| |eauto].
  destruct (Returns.total r !! h); [|congruence].
  destruct (Returns.lp r !! h); [eauto|congruence].
Qed.

Lemma fill_periods_gap (h : string) (ps : list (string * res Returns.returns_all))
    (o : Returns.fee_returns_output) (name : string) (r : Returns.returns_all) :
  In (name, Ok r) ps -> Returns.total r !! h = None \/ Returns.lp r !! h = None ->
  Returns.fill_periods h ps o = Raise (KeyError h).
Proof.
  revert o; induction ps as [|[name' [r'|e0]] t IH]; intros o Hin Hgap; simpl; [done| |].
  - destruct Hin as [Heq|Hin].
    + injection Heq as -> ->.
      destruct Hgap as [-> | Hl]; [done|].
      destruct (Returns.total r !! h); [by rewrite Hl|done].
    + destruct (Returns.total r' !! h); [|done].
      destruct (Returns.lp r' !! h); [by apply IH|done].
  - destruct Hin as [Heq|Hin]; [discriminate|by apply IH].
Qed.

Lemma entries_raise_key_error (rm : list (string * res Returns.returns_all))
    (l : list (string * Returns.fee_stat)) (h : string) (s : Returns.fee_stat) :
  In (h, s) l ->
  (exists k, Returns.fill_periods h rm (Returns.new_output (Returns.symbol s)) = Raise (KeyError k)) ->
  exists k, Returns.entries rm l = Raise (KeyError k).
Proof.
  induction l as [|[h' s'] t IH]; intros Hin Hfail; [done|]. simpl.
  destruct (Returns.fill_periods h' rm (Returns.new_output (Returns.symbol s'))) as [o|e] eqn:E.
  - simpl. destruct Hin as [Heq|Hin].
    + injection Heq as -> ->. destruct Hfail as [k Hk]. congruence.
    + destruct (IH Hin Hfail) as [k ->]. by exists k.
  - simpl. apply fill_periods_key_error in E. subst. eauto.
Qed.

(** For a deployed pair, when an entity of the finest successful
    period's ["lp"] data is missing from the ["total"] or ["lp"] data of
    another period that succeeded, [fee_returns] raises [KeyError]
    instead of returning a partial result. *)
Theorem fee_returns_coverage_gap_key_error
    (fee_returns_all : string -> string -> Z -> res Returns.returns_all)
    (D : Returns.deployments) (p c h : string) (valid : gmap string Returns.fee_stat)
    (s : Returns.fee_stat) (days : Z) (r : Returns.returns_all) :
  In (p, c) D ->
  finest_lp (fee_returns_all p c 1) (fee_returns_all p c 7) (fee_returns_all p c 30)
    = Some valid ->
  valid !! h = Some s ->
  In days [1; 7; 30] -> fee_returns_all p c days = Ok r ->
  Returns.total r !! h = None \/ Returns.lp r !! h = None ->
  exists k, Returns.fee_returns fee_returns_all D p c = Raise (KeyError k).
Proof.
  intros Hdep Hfin Hh Hdays Hr Hgap. unfold Returns.fee_returns.
  rewrite check_deployment_present by done. simpl.
  rewrite (valid_results_finest _ _ _ valid Hfin). simpl.
  apply (entries_raise_key_error _ _ h s).
  - apply list_elem_of_In. by apply elem_of_map_to_list.
  - exists h. apply (fill_periods_gap _ _ _ (if Z.eqb days 1 then "daily"
                                            else if Z.eqb days 7 then "weekly" else "monthly") r);
      [|done].
    destruct Hdays as [<-|[<-|[<-|[]]]]; simpl; rewrite Hr; auto.
Qed.

Lemma fee_returns_coverage_gap_key_error_witness :
  (In ("uniswapv3", "ethereum") [("uniswapv3", "ethereum")] /\
   finest_lp (gap_returns 1) (gap_returns 7) (gap_returns 30)
     = Some {[ "0xa" := sample_stat ]} /\
   ({[ "0xa" := sample_stat ]} : gmap string Returns.fee_stat) !! "0xa" = Some sample_stat /\
   In 7 [1; 7; 30] /\
   gap_returns 7 = Ok (Returns.mk_returns_all ∅ {[ "0xa" := sample_stat ]}) /\
   (Returns.total (Returns.mk_returns_all ∅ {[ "0xa" := sample_stat ]}) !! "0xa" = None \/
    Returns.lp (Returns.mk_returns_all ∅ {[ "0xa" := sample_stat ]}) !! "0xa" = None)) /\
  exists k, Returns.fee_returns (fun _ _ days => gap_returns days) [("uniswapv3", "ethereum")]
              "uniswapv3" "ethereum" = Raise (KeyError k).
Proof.
  split.
  { split; [by left|]. split; [reflexivity|]. split; [reflexivity|].
    split; [right; by left|]. split; [reflexivity|]. left; reflexivity. }
  apply (fee_returns_coverage_gap_key_error (fun _ _ days => gap_returns days)
           [("uniswapv3", "ethereum")] "uniswapv3" "ethereum" "0xa"
           {[ "0xa" := sample_stat ]} sample_stat 7
           (Returns.mk_returns_all ∅ {[ "0xa" := sample_stat ]})).
  - by left.
  - reflexivity.
  - reflexivity.
  - right; by left.
  - reflexivity.
  - left; reflexivity.
Defined.

(* ================================================================== *)
(** * Further properties of the frontend routes *)

(** [correlation_hypervisor] passes no token addresses, so when
    [filter_addresses(None)] is empty it either calls
    [get_correlation_from_hypervisors] with the filtered hypervisor
    address, or, when the filter drops that address, raises the 400
    ["You must provide either token_addresses or hypervisor_address"]. *)
Theorem correlation_hypervisor_cases {V : Type}
    (filter_addresses : option (list string) -> list string)
    (get_correlation : list string -> list string -> res V)
    (get_correlation_from_hypervisors : string -> list string -> res V)
    (chain hypervisor_address : string) :
  filter_addresses None = [] ->
  Analytics.correlation_hypervisor filter_addresses get_correlation
    get_correlation_from_hypervisors chain hypervisor_address
  = match filter_addresses (Some [hypervisor_address]) with
    | [] => Raise (HTTPException 400
                     "You must provide either token_addresses or hypervisor_address")
    | l => get_correlation_from_hypervisors chain l
    end.
Proof.
  intros Hnone. unfold Analytics.correlation_hypervisor, Frontend.correlation.
  rewrite Hnone. by destruct (filter_addresses (Some [hypervisor_address])).
Qed.

Lemma correlation_hypervisor_cases_witness :
  keep_addresses None = [] /\
  Analytics.correlation_hypervisor keep_addresses correlation_result
    hypervisor_correlation_result "ethereum" "0xh"
  = match keep_addresses (Some ["0xh"]) with
    | [] => Raise (HTTPException 400
                     "You must provide either token_addresses or hypervisor_address")
    | l => hypervisor_correlation_result "ethereum" l
    end.
Proof.
  split; [reflexivity|]. apply correlation_hypervisor_cases. reflexivity.
Defined.

(** [positions_status] with no [from_timestamp] (or [0]) asks
    [get_positions_analysis] for the last 14 days before the clock
    reading, for the first filtered address. *)
Theorem positions_default_window {V : Type}
    (filter_addresses : option (list string) -> list string)
    (get_positions_analysis : string -> string -> Z -> option Z -> res V)
    (chain hypervisor_address a : string) (rest : list string)
    (from_timestamp to_timestamp : option Z) (now : Z) :
  filter_addresses (Some [hypervisor_address]) = a :: rest ->
  from_timestamp = None \/ from_timestamp = Some 0 ->
  Analytics.positions_status filter_addresses get_positions_analysis chain
    hypervisor_address from_timestamp to_timestamp now
  = Analytics.Returned (get_positions_analysis chain a (now - 1209600) to_timestamp).
Proof.
  intros Hf Hfrom. unfold Analytics.positions_status. rewrite Hf.
  by destruct Hfrom as [->| ->].
Qed.

Lemma positions_default_window_witness :
  (keep_addresses (Some ["0xh"]) = "0xh" :: [] /\ (None : option Z) = None \/ None = Some 0) /\
  Analytics.positions_status keep_addresses positions_echo "ethereum" "0xh" None None 2000000
  = Analytics.Returned (positions_echo "ethereum" "0xh" (2000000 - 1209600) None).
Proof.
  split; [left; split; reflexivity|].
  apply (positions_default_window keep_addresses positions_echo "ethereum" "0xh" "0xh" []);
    [reflexivity|left; reflexivity].
Defined.

(** [positions_status] with a non-zero [from_timestamp] passes it on
    unchanged. *)
Theorem positions_explicit_from {V : Type}
    (filter_addresses : option (list string) -> list string)
    (get_positions_analysis : string -> string -> Z -> option Z -> res V)
    (chain hypervisor_address a : string) (rest : list string)
    (from to_timestamp : option Z) (z now : Z) :
  filter_addresses (Some [hypervisor_address]) = a :: rest ->
  z <> 0 ->
  Analytics.positions_status filter_addresses get_positions_analysis chain
    hypervisor_address (Some z) to_timestamp now
  = Analytics.Returned (get_positions_analysis chain a z to_timestamp).
Proof.
  intros Hf Hz. unfold Analytics.positions_status. rewrite Hf.
  by destruct (Z.eqb_spec z 0).
Qed.

Lemma positions_explicit_from_witness :
  (keep_addresses (Some ["0xh"]) = "0xh" :: [] /\ 1000 <> 0) /\
  Analytics.positions_status keep_addresses positions_echo "ethereum" "0xh" (Some 1000) None 2000000
  = Analytics.Returned (positions_echo "ethereum" "0xh" 1000 None).
Proof.
  split; [split; [reflexivity|discriminate]|].
  apply (positions_explicit_from keep_addresses positions_echo "ethereum" "0xh" "0xh" []
           None None); [reflexivity|discriminate].
Defined.

(** When [filter_addresses] drops the given address, [positions_status]
    raises [IndexError] and never calls [get_positions_analysis]. *)
Theorem positions_filtered_out_index_error {V : Type}
    (filter_addresses : option (list string) -> list string)
    (get_positions_analysis : string -> string -> Z -> option Z -> res V)
    (chain hypervisor_address : string) (from_timestamp to_timestamp : option Z) (now : Z) :
  filter_addresses (Some [hypervisor_address]) = [] ->
  Analytics.positions_status filter_addresses get_positions_analysis chain
    hypervisor_address from_timestamp to_timestamp now = Analytics.IndexError_raised.
Proof. intros Hf. unfold Analytics.positions_status. by rewrite Hf. Qed.

Lemma positions_filtered_out_index_error_witness :
  (fun _ : option (list string) => @nil string) (Some ["bad"]) = [] /\
  Analytics.positions_status (fun _ => []) positions_echo "ethereum" "bad" None None 0
  = Analytics.IndexError_raised.
Proof.
  split; [reflexivity|]. by apply positions_filtered_out_index_error.
Defined.

(** For [Period.DAILY] (given as the enum or as an integer that
    [int_to_period] maps to it), [hypervisor_analytics_return_graph]
    asks for twice the period's days of data, with one point per hour. *)
Theorem return_graph_daily_window {V : Type}
    (int_to_period : Z -> res Frontend.period) (period_daily : Frontend.period)
    (period_eqb : Frontend.period -> Frontend.period -> bool)
    (build : string -> string -> Z -> Z -> res V)
    (chain a : string) (p : Frontend.period_arg) (q : Frontend.period) (now : Z) :
  (p = Frontend.PEnum q \/ exists n, p = Frontend.PInt n /\ int_to_period n = Ok q) ->
  period_eqb q period_daily = true ->
  Analytics.hypervisor_analytics_return_graph int_to_period period_daily period_eqb build
    chain a p now
  = build chain a (now - Frontend.period_days q * 2 * 86400) 3600.
Proof.
  intros Hp Hd. unfold Analytics.hypervisor_analytics_return_graph.
  destruct Hp as [->|[n [-> Hn]]]; [|rewrite Hn]; simpl bind; rewrite Hd; simpl;
    f_equal; lia.
Qed.

Lemma return_graph_daily_window_witness :
  ((Frontend.PInt 1 = Frontend.PEnum sample_daily \/
    exists n, Frontend.PInt 1 = Frontend.PInt n /\ sample_int_to_period n = Ok sample_daily) /\
   sample_period_eqb sample_daily sample_daily = true) /\
  Analytics.hypervisor_analytics_return_graph sample_int_to_period sample_daily
    sample_period_eqb graph_echo "ethereum" "0xh" (Frontend.PInt 1) 1000000
  = graph_echo "ethereum" "0xh" (1000000 - 1 * 2 * 86400) 3600.
Proof.
  split; [split; [right; exists 1; split; reflexivity|reflexivity]|].
  apply (return_graph_daily_window sample_int_to_period sample_daily sample_period_eqb
           graph_echo "ethereum" "0xh" (Frontend.PInt 1) sample_daily 1000000).
  - right. exists 1. split; reflexivity.
  - reflexivity.
Defined.

(** For any other period, [hypervisor_analytics_return_graph] asks for
    the period's days of data, with one point every 12 hours. *)
Theorem return_graph_other_window {V : Type}
    (int_to_period : Z -> res Frontend.period) (period_daily : Frontend.period)
    (period_eqb : Frontend.period -> Frontend.period -> bool)
    (build : string -> string -> Z -> Z -> res V)
    (chain a : string) (p : Frontend.period_arg) (q : Frontend.period) (now : Z) :
  (p = Frontend.PEnum q \/ exists n, p = Frontend.PInt n /\ int_to_period n = Ok q) ->
  period_eqb q period_daily = false ->
  Analytics.hypervisor_analytics_return_graph int_to_period period_daily period_eqb build
    chain a p now
  = build chain a (now - Frontend.period_days q * 86400) 43200.
Proof.
  intros Hp Hd. unfold Analytics.hypervisor_analytics_return_graph.
  destruct Hp as [->|[n [-> Hn]]]; [|rewrite Hn]; simpl bind; rewrite Hd; simpl;
    f_equal; lia.
Qed.

Lemma return_graph_other_window_witness :
  ((Frontend.PEnum sample_weekly = Frontend.PEnum sample_weekly \/
    exists n, Frontend.PEnum sample_weekly = Frontend.PInt n /\
              sample_int_to_period n = Ok sample_weekly) /\
   sample_period_eqb sample_weekly sample_daily = false) /\
  Analytics.hypervisor_analytics_return_graph sample_int_to_period sample_daily
    sample_period_eqb graph_echo "ethereum" "0xh" (Frontend.PEnum sample_weekly) 1000000
  = graph_echo "ethereum" "0xh" (1000000 - 7 * 86400) 43200.
Proof.
  split; [split; [left; reflexivity|reflexivity]|].
  apply (return_graph_other_window sample_int_to_period sample_daily sample_period_eqb
           graph_echo "ethereum" "0xh" (Frontend.PEnum sample_weekly) sample_weekly 1000000).
  - left. reflexivity.
  - reflexivity.
Defined.

(** An integer period that [int_to_period] rejects makes
    [hypervisor_analytics_return_graph] raise that error without
    querying the graph builder. *)
Theorem return_graph_bad_int_period {V : Type}
    (int_to_period : Z -> res Frontend.period) (period_daily : Frontend.period)
    (period_eqb : Frontend.period -> Frontend.period -> bool)
    (build : string -> string -> Z -> Z -> res V)
    (chain a : string) (n now : Z) (e : exc) :
  int_to_period n = Raise e ->
  Analytics.hypervisor_analytics_return_graph int_to_period period_daily period_eqb build
    chain a (Frontend.PInt n) now = Raise e.
Proof.
  intros Hn. unfold Analytics.hypervisor_analytics_return_graph. by rewrite Hn.
Qed.

Lemma return_graph_bad_int_period_witness :
  sample_int_to_period 3 = Raise (ValueError "invalid period") /\
  Analytics.hypervisor_analytics_return_graph sample_int_to_period sample_daily
    sample_period_eqb graph_echo "ethereum" "0xh" (Frontend.PInt 3) 1000000
  = Raise (ValueError "invalid period").
Proof.
  split; [reflexivity|]. apply return_graph_bad_int_period. reflexivity.
Defined.
